(** * TransactAI: the fraud decision backend

    A shallow embedding of [src/main/backend/backend-server.py] (rule
    evaluation, scoring client, report dispatch, ledger write and the two
    request handlers [detect] and [batch_detect]) together with the response
    built by [src/main/backend/mlserver.py] and the rows written by
    [add_rule] of [src/solo-pages/rule.py].

    Python values are an inductive type, exceptions are a sum type, and the
    handlers run in a small monad that threads the log of calls made to the
    outside world (store, scoring server, report server). *)

From Stdlib Require Import ZArith List String Ascii Bool Lia.
From Stdlib Require Import Floats.SpecFloat.
From Stdlib Require Import Sorting.Permutation.
Import ListNotations.

Open Scope string_scope.
Open Scope Z_scope.
Open Scope list_scope.

Set Warnings "-register-all".

(** ** Python values and exceptions *)

Module Py.

(** A Python [float] is an IEEE binary64 number. *)
Definition float := spec_float.

(** [a > b] on floats; false as soon as one side is NaN. *)
Definition float_gt (a b : float) : bool := SFltb b a.

(** The values [response.json()] can produce, which are also the values
    stored under ["is_fraud_predicted"].  [Dict] holds the items of a
    dictionary, each key once. *)
Inductive value : Type :=
| None_
| Bool (b : bool)
| Int (z : Z)
| Float (f : float)
| Str (s : string)
| List (l : list value)
| Dict (items : list (string * value)).

Inductive exn : Type :=
| IndexError
| KeyError
| TypeError
| AttributeError
| JSONDecodeError
| HTTPError
| ConnectionError
| Timeout
| DatabaseError.

Inductive res (A : Type) : Type :=
| Ok (a : A)
| Raise (e : exn).
Arguments Ok {A} a.
Arguments Raise {A} e.

(** Truth value of an object, as [if x] and [x or y] test it. *)
Definition truthy (v : value) : bool :=
  match v with
  | None_ => false
  | Bool b => b
  | Int z => negb (z =? 0)
  | Float (S754_zero _) => false
  | Float _ => true
  | Str "" => false
  | Str _ => true
  | List [] => false
  | List _ => true
  | Dict [] => false
  | Dict _ => true
  end.

(** Truth value of an [Optional[str]]: [None] and [""] are false. *)
Definition str_truthy (o : option string) : bool :=
  match o with
  | Some s => negb (s =? "")%string
  | None => false
  end.

(** [a == b] between two values that are each [None] or a [str]. *)
Definition opt_str_eqb (a b : option string) : bool :=
  match a, b with
  | Some x, Some y => (x =? y)%string
  | None, None => true
  | _, _ => false
  end.

(** [f"{x}"] for [x] that is [None] or a [str]. *)
Definition format_opt_str (o : option string) : string :=
  match o with
  | Some s => s
  | None => "None"
  end.

Fixpoint assoc (k : string) (items : list (string * value)) : option value :=
  match items with
  | [] => None
  | (k', v) :: rest => if (k =? k')%string then Some v else assoc k rest
  end.

(** [d.get(k, default)]: only a [dict] has the method. *)
Definition get (d : value) (k : string) (default : value) : res value :=
  match d with
  | Dict items =>
      match assoc k items with
      | Some v => Ok v
      | None => Ok default
      end
  | _ => Raise AttributeError
  end.

(** The characters of a string.  A string is kept as the bytes of its
    UTF-8 encoding: a byte that continues a sequence stays with the byte
    that starts it. *)
Definition is_continuation (c : ascii) : bool :=
  (128 <=? nat_of_ascii c)%nat && (nat_of_ascii c <? 192)%nat.

Fixpoint characters_aux (s : string) : string * list string :=
  match s with
  | "" => ("", [])
  | String c rest =>
      let (pending, chars) := characters_aux rest in
      if is_continuation c then (String c pending, chars)
      else ("", String c pending :: chars)
  end.

Definition characters (s : string) : list string :=
  let (pending, chars) := characters_aux s in
  match pending with
  | "" => chars
  | _ => pending :: chars
  end.

(** [x[0]]: the first element of a list, the first character of a string.
    The keys of a dict decoded from JSON are strings, so the integer key
    [0] is never found. *)
Definition getitem0 (x : value) : res value :=
  match x with
  | List (v :: _) => Ok v
  | List [] => Raise IndexError
  | Str s =>
      match characters s with
      | c :: _ => Ok (Str c)
      | [] => Raise IndexError
      end
  | Dict _ => Raise KeyError
  | None_ | Bool _ | Int _ | Float _ => Raise TypeError
  end.

(** [sep.join(l)] *)
Definition join (sep : string) (l : list string) : string :=
  String.concat sep l.

End Py.

Import Py.

(** ** Data model *)

(** The value the database driver hands back for the numeric [threshold]
    column.  The table's schema is not part of the repository, so the value
    is kept as the two things [check_transaction] does with it:
    [float(threshold)] and [f"{threshold}"]. *)
Record db_number : Type := mk_db_number {
  as_float : Py.float;
  as_text : string
}.

(** One row of [fraud_rules], as a dictionary cursor returns it
    ([SELECT *]: every column is a key, SQL NULL is [None]). *)
Record Rule : Type := mk_Rule {
  id : Z;
  rule_type : option string;
  threshold : option db_number;
  blocked_ip : option string;
  blocked_payer_browser : option string;
  blocked_payment_gateway : option string;
  blocked_email : option string;
  is_active : Z
}.

(** [class Transaction(BaseModel)] *)
Record Transaction : Type := mk_Transaction {
  transaction_id : string;
  transaction_date : string;
  transaction_amount : Py.float;
  transaction_channel : option string;
  transaction_payment_mode : option string;
  payment_gateway_bank : option string;
  payer_email : option string;
  payer_mobile : option string;
  payer_card_brand : option string;
  payer_ip : option string;
  payer_browser : option string;
  payee_id : option string
}.

(** The dictionary [check_transaction] returns. *)
Record RuleResult : Type := mk_RuleResult {
  rr_transaction_id : string;
  is_fraud_rule : bool;
  fraud_source : string;
  fraud_reasons : list string
}.

(** ** Rule evaluation: the loop of [check_transaction] *)

(** The loop's two mutable locals, [is_fraud] and [fraud_reasons]. *)
Definition loop_state : Type := (bool * list string)%type.

(** [is_fraud = True; fraud_reasons.append(reason)] *)
Definition flag (reason : string) (st : loop_state) : loop_state :=
  (true, snd st ++ [reason]).

(** One iteration of [for rule in rules]. *)
Definition loop_body (transaction : Transaction) (st : loop_state) (rule : Rule)
  : loop_state :=
  let rule_type := rule.(rule_type) in
  let threshold := rule.(threshold) in
  let blocked_ip := rule.(blocked_ip) in
  let blocked_browser := rule.(blocked_payer_browser) in
  let blocked_gateway := rule.(blocked_payment_gateway) in
  let blocked_email := rule.(blocked_email) in
  let st :=
    match threshold with
    | Some th =>
        if opt_str_eqb rule_type (Some "Threshold Value") then
          if float_gt transaction.(transaction_amount) (as_float th)
          then flag ("High transaction amount (> " ++ as_text th ++ ")")%string st
          else st
        else st
    | None => st
    end in
  let st :=
    if str_truthy blocked_ip && opt_str_eqb transaction.(payer_ip) blocked_ip
    then flag ("Blocked IP: " ++ format_opt_str blocked_ip)%string st else st in
  let st :=
    if str_truthy blocked_browser
       && opt_str_eqb transaction.(payer_browser) blocked_browser
    then flag ("Blocked Browser: " ++ format_opt_str blocked_browser)%string st
    else st in
  let st :=
    if str_truthy blocked_gateway
       && opt_str_eqb transaction.(payment_gateway_bank) blocked_gateway
    then flag ("Blocked Payment Gateway: " ++ format_opt_str blocked_gateway)%string st
    else st in
  let st :=
    if str_truthy blocked_email
       && opt_str_eqb transaction.(payer_email) blocked_email
    then flag ("Blocked Email: " ++ format_opt_str blocked_email)%string st else st in
  st.

(** [check_transaction] once [fetch_rules()] has returned [rules]. *)
Definition check_transaction_on (rules : list Rule) (transaction : Transaction)
  : RuleResult :=
  let st := fold_left (loop_body transaction) rules (false, []) in
  {| rr_transaction_id := transaction.(transaction_id);
     is_fraud_rule := fst st;
     fraud_source := "rule";
     fraud_reasons := snd st |}.

(** ** The outside world and the monad of the handlers *)

(** What [requests.post] hands back when it does not raise. [body] is the
    decoded JSON document, [None] when the body is not JSON (then
    [response.json()] raises). *)
Record Response : Type := mk_Response {
  status_code : Z;
  body : option value
}.

(** The calls the backend makes to its collaborators, in program order. *)
Inductive call : Type :=
| SelectActiveRules
| InsertTransaction (values : list value)
| HttpPost (url : string) (json : value).

(** How the collaborators answer while one transaction is processed: the
    content of [fraud_rules] (or the error raised on the way to it), the
    scoring server's answer, the report server's answer and the outcome of
    the INSERT. *)
Record World : Type := mk_World {
  store_rules : res (list Rule);
  scoring : res Response;
  reporting : res Response;
  store_insert : res unit
}.

(** A computation logs its calls and returns a value or raises. *)
Definition M (A : Type) : Type := list call -> list call * res A.

Definition ret {A} (a : A) : M A := fun log => (log, Ok a).

Definition bind {A B} (m : M A) (k : A -> M B) : M B :=
  fun log =>
    match m log with
    | (log', Ok a) => k a log'
    | (log', Raise e) => (log', Raise e)
    end.

Definition emit (c : call) : M unit := fun log => (log ++ [c], Ok tt).

Definition lift {A} (r : res A) : M A := fun log => (log, r).

(** [try: m  except Exception as e: h] *)
Definition try_except {A} (m : M A) (h : exn -> M A) : M A :=
  fun log =>
    match m log with
    | (log', Ok a) => (log', Ok a)
    | (log', Raise e) => h e log'
    end.

Notation "x <- m ;; k" := (bind m (fun x => k))
  (at level 61, m at next level, right associativity).
Notation "m ;;; k" := (bind m (fun _ => k))
  (at level 61, right associativity).

(** Run a handler from an empty log. *)
Definition run {A} (m : M A) : list call * res A := m [].
Definition calls {A} (m : M A) : list call := fst (run m).
Definition outcome {A} (m : M A) : res A := snd (run m).

Definition ML_SERVER_URL : string := "http://localhost:8100/mlpredict".
Definition REPORT_API_URL : string := "http://localhost:8200/report".

(** [requests.post(url, json=payload)] *)
Definition requests_post (url : string) (payload : value) (answer : res Response)
  : M Response :=
  emit (HttpPost url payload) ;;; lift answer.

(** [response.raise_for_status()]: raises on a 4xx or 5xx status. *)
Definition raise_for_status (response : Response) : M unit :=
  if (400 <=? response.(status_code)) && (response.(status_code) <? 600)
  then lift (Raise HTTPError)
  else ret tt.

(** [response.json()] *)
Definition response_json (response : Response) : M value :=
  match response.(body) with
  | Some v => ret v
  | None => lift (Raise JSONDecodeError)
  end.

Definition of_opt_str (o : option string) : value :=
  match o with
  | Some s => Str s
  | None => None_
  end.

(** [transaction.dict()] *)
Definition Transaction_dict (t : Transaction) : value :=
  Dict [ ("transaction_id", Str t.(transaction_id));
         ("transaction_date", Str t.(transaction_date));
         ("transaction_amount", Float t.(transaction_amount));
         ("transaction_channel", of_opt_str t.(transaction_channel));
         ("transaction_payment_mode", of_opt_str t.(transaction_payment_mode));
         ("payment_gateway_bank", of_opt_str t.(payment_gateway_bank));
         ("payer_email", of_opt_str t.(payer_email));
         ("payer_mobile", of_opt_str t.(payer_mobile));
         ("payer_card_brand", of_opt_str t.(payer_card_brand));
         ("payer_ip", of_opt_str t.(payer_ip));
         ("payer_browser", of_opt_str t.(payer_browser));
         ("payee_id", of_opt_str t.(payee_id)) ].

(** ** The backend's functions *)

(** [fetch_rules]: [SELECT * FROM fraud_rules WHERE is_active = 1] *)
Definition fetch_rules (w : World) : M (list Rule) :=
  emit SelectActiveRules ;;;
  table <- lift w.(store_rules) ;;
  ret (filter (fun r => r.(is_active) =? 1) table).

Definition check_transaction (w : World) (transaction : Transaction)
  : M RuleResult :=
  rules <- fetch_rules w ;;
  ret (check_transaction_on rules transaction).

(** The dictionary [report_data] built by [send_fraud_report]. *)
Definition report_data (transaction_id fraud_details : string) : value :=
  Dict [ ("transaction_id", Str transaction_id);
         ("reporting_entity_id", Str "system");
         ("fraud_details", Str fraud_details) ].

Definition send_fraud_report (w : World) (transaction_id fraud_details : string)
  : M unit :=
  let report_data := report_data transaction_id fraud_details in
  try_except
    (requests_post REPORT_API_URL report_data w.(reporting) ;;; ret tt)
    (fun _ => ret tt).

(** The tuple [values] built by [upload_transaction]. *)
Definition insert_values (transaction : Transaction) (result_rule : bool)
  (result_predict : value) : list value :=
  [ Str transaction.(transaction_id); Str transaction.(transaction_date);
    Float transaction.(transaction_amount);
    of_opt_str transaction.(transaction_channel);
    of_opt_str transaction.(transaction_payment_mode);
    of_opt_str transaction.(payment_gateway_bank);
    of_opt_str transaction.(payer_email);
    of_opt_str transaction.(payer_mobile);
    of_opt_str transaction.(payer_browser);
    of_opt_str transaction.(payee_id);
    Bool result_rule; result_predict; None_ ].

Definition upload_transaction (w : World) (transaction : Transaction)
  (result_rule : bool) (result_predict : value) : M unit :=
  let values := insert_values transaction result_rule result_predict in
  emit (InsertTransaction values) ;;; lift w.(store_insert).

Definition get_ml_prediction (w : World) (transaction : value) : M value :=
  try_except
    (response <- requests_post ML_SERVER_URL transaction w.(scoring) ;;
     raise_for_status response ;;;
     doc <- response_json response ;;
     p <- lift (get doc "prediction" (List [])) ;;
     prediction <- lift (getitem0 p) ;;
     ret prediction)
    (fun _ => ret None_).

(** The dictionary [detect] returns: the rule result with
    ["is_fraud_predicted"] added. *)
Record DetectResult : Type := mk_DetectResult {
  rule_part : RuleResult;
  is_fraud_predicted : value
}.

Definition detect (w : World) (transaction : Transaction) : M DetectResult :=
  let transaction_dict := Transaction_dict transaction in
  result <- check_transaction w transaction ;;
  ml_prediction <- get_ml_prediction w transaction_dict ;;
  let result := {| rule_part := result; is_fraud_predicted := ml_prediction |} in
  (if result.(rule_part).(is_fraud_rule) || truthy result.(is_fraud_predicted)
   then send_fraud_report w transaction.(transaction_id)
          (join ", " result.(rule_part).(fraud_reasons))
   else ret tt) ;;;
  upload_transaction w transaction
    result.(rule_part).(is_fraud_rule) result.(is_fraud_predicted) ;;;
  ret result.

(** One entry of the list [batch_detect] returns. *)
Record BatchEntry : Type := mk_BatchEntry {
  be_transaction_id : string;
  be_is_fraud_rule : bool;
  be_is_fraud_predicted : value;
  be_fraud_reasons : string
}.

(** The body of [for transaction in request.transactions]; the answers of
    the collaborators while this item is processed are [w]. *)
Definition batch_item (w : World) (transaction : Transaction) : M BatchEntry :=
  let transaction_dict := Transaction_dict transaction in
  result <- check_transaction w transaction ;;
  ml_prediction <- get_ml_prediction w transaction_dict ;;
  let result := {| rule_part := result; is_fraud_predicted := ml_prediction |} in
  upload_transaction w transaction
    result.(rule_part).(is_fraud_rule) result.(is_fraud_predicted) ;;;
  (if result.(rule_part).(is_fraud_rule) || truthy result.(is_fraud_predicted)
   then send_fraud_report w transaction.(transaction_id)
          (join ", " result.(rule_part).(fraud_reasons))
   else ret tt) ;;;
  ret {| be_transaction_id := transaction.(transaction_id);
         be_is_fraud_rule := result.(rule_part).(is_fraud_rule);
         be_is_fraud_predicted := result.(is_fraud_predicted);
         be_fraud_reasons := join ", " result.(rule_part).(fraud_reasons) |}.

(** [batch_detect]: the loop appends one entry per transaction to [results].
    Each submitted transaction comes with the collaborators' answers at the
    time it is processed. *)
Fixpoint batch_loop (items : list (World * Transaction)) (results : list BatchEntry)
  : M (list BatchEntry) :=
  match items with
  | [] => ret results
  | (w, transaction) :: rest =>
      entry <- batch_item w transaction ;;
      batch_loop rest (results ++ [entry])
  end.

Definition batch_detect (items : list (World * Transaction))
  : M (list BatchEntry) :=
  batch_loop items [].

(** ** The scoring server's answer ([mlserver.py]) *)

(** [ml_predict]: [prediction] is the model's bit (true: reconstruction loss
    under the cut-off), [result = int(prediction) ^ 1]. *)
Definition ml_predict (api_data : value) (prediction : bool) : res value :=
  match get api_data "transaction_id" (Str "") with
  | Ok tid =>
      let result := Z.lxor (Z.b2z prediction) 1 in
      Ok (Dict [ ("transaction_id", tid); ("is_fraud", Int result) ])
  | Raise e => Raise e
  end.

(** ** Vocabulary of the statements about rule evaluation *)

(** The rows [fetch_rules] keeps. *)
Definition active (table : list Rule) : list Rule :=
  filter (fun r => r.(is_active) =? 1) table.

(** What one rule, evaluated on its own from the loop's initial state,
    does to the two locals. *)
Definition rule_triggers (t : Transaction) (r : Rule) : bool :=
  fst (loop_body t (false, []) r).

Definition rule_reasons (t : Transaction) (r : Rule) : list string :=
  snd (loop_body t (false, []) r).

Definition threshold_reason (th : db_number) : string :=
  ("High transaction amount (> " ++ as_text th ++ ")")%string.

(** [needle] occurs in [s]. *)
Definition contains (needle s : string) : Prop :=
  exists pre post, s = (pre ++ needle ++ post)%string.

(** The reasons contributed by the threshold check and by one blocked-value
    check of an iteration. *)
Definition threshold_part (t : Transaction) (r : Rule) : list string :=
  match r.(threshold) with
  | Some th =>
      if opt_str_eqb r.(rule_type) (Some "Threshold Value")
         && float_gt t.(transaction_amount) (as_float th)
      then [threshold_reason th] else []
  | None => []
  end.

Definition blocked_part (label : string) (field blocked : option string)
  : list string :=
  if str_truthy blocked && opt_str_eqb field blocked
  then [(label ++ format_opt_str blocked)%string] else [].

Definition parts (t : Transaction) (r : Rule) : list string :=
  threshold_part t r
  ++ blocked_part "Blocked IP: " t.(payer_ip) r.(blocked_ip)
  ++ blocked_part "Blocked Browser: " t.(payer_browser) r.(blocked_payer_browser)
  ++ blocked_part "Blocked Payment Gateway: " t.(payment_gateway_bank)
       r.(blocked_payment_gateway)
  ++ blocked_part "Blocked Email: " t.(payer_email) r.(blocked_email).

Definition is_nil {A} (l : list A) : bool :=
  match l with
  | [] => true
  | _ => false
  end.

(** The rows [add_rule] of the rule page inserts: the named column gets the
    value, the others stay NULL. *)
Inductive blocked_kind : Type :=
| BlockedIP
| BlockedGateway
| BlockedBrowser
| BlockedEmail.

Definition blocked_row (k : blocked_kind) (value : option string) : Rule :=
  let none := @None string in
  match k with
  | BlockedIP => mk_Rule 0 (Some "Blocked IP") None value none none none 1
  | BlockedGateway =>
      mk_Rule 0 (Some "Blocked Payment Gateway") None none none value none 1
  | BlockedBrowser => mk_Rule 0 (Some "Blocked Browser") None none value none none 1
  | BlockedEmail => mk_Rule 0 (Some "Blocked Email") None none none none value 1
  end.

Definition threshold_row (th : db_number) : Rule :=
  mk_Rule 0 (Some "Threshold Value") (Some th) None None None None 1.

(** The transaction field a blocked-value kind looks at, the column holding
    its value, and the prefix of its reason. *)
Definition field_of (k : blocked_kind) (t : Transaction) : option string :=
  match k with
  | BlockedIP => t.(payer_ip)
  | BlockedGateway => t.(payment_gateway_bank)
  | BlockedBrowser => t.(payer_browser)
  | BlockedEmail => t.(payer_email)
  end.

Definition column_of (k : blocked_kind) (r : Rule) : option string :=
  match k with
  | BlockedIP => r.(blocked_ip)
  | BlockedGateway => r.(blocked_payment_gateway)
  | BlockedBrowser => r.(blocked_payer_browser)
  | BlockedEmail => r.(blocked_email)
  end.

Definition label_of (k : blocked_kind) : string :=
  match k with
  | BlockedIP => "Blocked IP: "
  | BlockedGateway => "Blocked Payment Gateway: "
  | BlockedBrowser => "Blocked Browser: "
  | BlockedEmail => "Blocked Email: "
  end.

(** Binary64 numbers with an integer value, for the examples. *)
Definition float_of_Z (z : Z) : Py.float := binary_normalize 53 1024 z 0 false.

(** A transaction with every optional field absent. *)
Definition bare_transaction (tid : string) (amount : Py.float) : Transaction :=
  mk_Transaction tid "2025-01-01" amount None None None None None None None None None.

(** ** Sample data *)

Definition th1000 : db_number :=
  {| as_float := float_of_Z 1000; as_text := "1000.0" |}.

Definition th5000 : db_number :=
  {| as_float := float_of_Z 5000; as_text := "5000.0" |}.


Definition with_ip (t : Transaction) (ip : string) : Transaction :=
  mk_Transaction t.(transaction_id) t.(transaction_date) t.(transaction_amount)
    t.(transaction_channel) t.(transaction_payment_mode) t.(payment_gateway_bank)
    t.(payer_email) t.(payer_mobile) t.(payer_card_brand) (Some ip)
    t.(payer_browser) t.(payee_id).

(** [{amount: 6000, payerIP: "1.2.3.4"}] *)
Definition tx6000 : Transaction :=
  with_ip (bare_transaction "T1" (float_of_Z 6000)) "1.2.3.4".

Definition tx1000 : Transaction := bare_transaction "T2" (float_of_Z 1000).

(** ** Vocabulary of the statements about scoring and orchestration *)

(** Status codes on which [raise_for_status] raises. *)
Definition error_status (status : Z) : bool :=
  (400 <=? status) && (status <? 600).

(** The value [get_ml_prediction] returns, as a function of the scoring
    server's answer. *)
Definition prediction_of (answer : res Response) : value :=
  match answer with
  | Raise _ => None_
  | Ok response =>
      if error_status response.(status_code) then None_
      else
        match response.(body) with
        | None => None_
        | Some (Dict items) =>
            match assoc "prediction" items with
            | None => None_
            | Some (List (v :: _)) => v
            | Some (Str s) =>
                match characters s with
                | c :: _ => Str c
                | [] => None_
                end
            | Some _ => None_
            end
        | Some _ => None_
        end
  end.

(** A success answer whose body is [{"prediction": p}]. *)
Definition prediction_response (p : value) : Response :=
  {| status_code := 200; body := Some (Dict [("prediction", p)]) |}.

(** [result["is_fraud_rule"] or result["is_fraud_predicted"]] *)
Definition positive (r : DetectResult) : bool :=
  r.(rule_part).(is_fraud_rule) || truthy r.(is_fraud_predicted).

(** The verdict both handlers compute for a transaction, given the rule
    table and the scoring server's answer. *)
Definition verdict (table : list Rule) (sc : res Response) (t : Transaction)
  : DetectResult :=
  {| rule_part := check_transaction_on (active table) t;
     is_fraud_predicted := prediction_of sc |}.

Definition score_call (t : Transaction) : call :=
  HttpPost ML_SERVER_URL (Transaction_dict t).

Definition report_call (t : Transaction) (r : DetectResult) : call :=
  HttpPost REPORT_API_URL
    (report_data t.(transaction_id) (join ", " r.(rule_part).(fraud_reasons))).

Definition insert_call (t : Transaction) (r : DetectResult) : call :=
  InsertTransaction
    (insert_values t r.(rule_part).(is_fraud_rule) r.(is_fraud_predicted)).

Definition is_report (c : call) : bool :=
  match c with
  | HttpPost url _ => (url =? REPORT_API_URL)%string
  | _ => false
  end.

Definition is_insert (c : call) : bool :=
  match c with
  | InsertTransaction _ => true
  | _ => false
  end.

(** The entry [batch_detect] appends for an item. *)
Definition entry_of (table : list Rule) (sc : res Response) (t : Transaction)
  : BatchEntry :=
  let r := verdict table sc t in
  {| be_transaction_id := t.(transaction_id);
     be_is_fraud_rule := r.(rule_part).(is_fraud_rule);
     be_is_fraud_predicted := r.(is_fraud_predicted);
     be_fraud_reasons := join ", " r.(rule_part).(fraud_reasons) |}.

(** Both store operations of an item succeed. *)
Definition store_ok (w : World) : Prop :=
  (exists table, w.(store_rules) = Ok table) /\ w.(store_insert) = Ok tt.

Definition table_of (w : World) : list Rule :=
  match w.(store_rules) with
  | Ok table => table
  | Raise _ => []
  end.

(** A world where every collaborator answers; the scoring server answers
    with [sc]. *)
Definition calm_world (table : list Rule) (sc : Response) : World :=
  {| store_rules := Ok table;
     scoring := Ok sc;
     reporting := Ok {| status_code := 200; body := Some (Dict []) |};
     store_insert := Ok tt |}.

(** A world where the rule table cannot be read. *)
Definition store_down : World :=
  {| store_rules := Raise DatabaseError;
     scoring := Ok (prediction_response (List [Int 0]));
     reporting := Ok {| status_code := 200; body := Some (Dict []) |};
     store_insert := Raise DatabaseError |}.

(** ** The statements of the specification that the code is compared with *)

(** The inversion the specification asks of the scoring client, for a wire
    format [wire] of the bit: after a successful call answering
    [{"prediction": wire p}] the verdict's anomaly field is a definite
    answer, false for [p = 1] and true for [p = 0]. *)
Definition inverts_scoring_bit (wire : Z -> value) : Prop :=
  forall table t p,
    p = 0 \/ p = 1 ->
    exists r,
      outcome (detect (calm_world table (prediction_response (wire p))) t) = Ok r
      /\ r.(is_fraud_predicted) <> None_
      /\ truthy r.(is_fraud_predicted) = (p =? 0).

(** The fraud bit of the scoring contract. *)
Definition is_bit (v : value) : bool :=
  match v with
  | Int z => (z =? 0) || (z =? 1)
  | Bool _ => true
  | _ => false
  end.

(** A payload of the shape the scoring contract names: an object whose
    ["prediction"] is the bit, bare or as the first element of a list. *)
Definition well_formed_payload (doc : value) : bool :=
  match doc with
  | Dict items =>
      match assoc "prediction" items with
      | Some (List (v :: _)) => is_bit v
      | Some v => is_bit v
      | None => false
      end
  | _ => false
  end.

(** The failures of a scoring call the specification lists: network error or
    timeout, non-success response, malformed payload. *)
Definition scoring_failed (answer : res Response) : bool :=
  match answer with
  | Raise _ => true
  | Ok response =>
      error_status response.(status_code)
      || match response.(body) with
         | Some doc => negb (well_formed_payload doc)
         | None => true
         end
  end.

(** The failures [get_ml_prediction] notices: [requests.post] raised, the
    status is 4xx or 5xx, the body is not JSON or not an object, it has no
    ["prediction"], or that is neither a non-empty list nor a non-empty
    string. *)
Definition scoring_rejected (answer : res Response) : bool :=
  match answer with
  | Raise _ => true
  | Ok response =>
      error_status response.(status_code)
      || match response.(body) with
         | Some (Dict items) =>
             match assoc "prediction" items with
             | Some (List (_ :: _)) => false
             | Some (Str (String _ _)) => false
             | _ => true
             end
         | _ => true
         end
  end.

(** Item failures are isolated: whatever the collaborators answer, the
    batch returns one entry per submitted item. *)
Definition isolates_item_failures : Prop :=
  forall items,
    exists results,
      outcome (batch_detect items) = Ok results
      /\ List.length results = List.length items.

(** The entry of a submitted item. *)
Definition item_entry (item : World * Transaction) : BatchEntry :=
  entry_of (table_of (fst item)) (fst item).(scoring) (snd item).

(** The ledger write comes before the report dispatch in a log of calls:
    every report call has an insert before it. *)
Fixpoint persisted_before_reported (seen_insert : bool) (log : list call) : bool :=
  match log with
  | [] => true
  | c :: rest =>
      if is_report c then seen_insert && persisted_before_reported seen_insert rest
      else persisted_before_reported (seen_insert || is_insert c) rest
  end.

(** ** Vocabulary of the further statements about the backend *)

Definition with_card_brand (t : Transaction) (brand : option string) : Transaction :=
  mk_Transaction t.(transaction_id) t.(transaction_date) t.(transaction_amount)
    t.(transaction_channel) t.(transaction_payment_mode) t.(payment_gateway_bank)
    t.(payer_email) t.(payer_mobile) brand t.(payer_ip)
    t.(payer_browser) t.(payee_id).

Definition with_payer_ip (t : Transaction) (ip : option string) : Transaction :=
  mk_Transaction t.(transaction_id) t.(transaction_date) t.(transaction_amount)
    t.(transaction_channel) t.(transaction_payment_mode) t.(payment_gateway_bank)
    t.(payer_email) t.(payer_mobile) t.(payer_card_brand) ip
    t.(payer_browser) t.(payee_id).

Definition is_select (c : call) : bool :=
  match c with
  | SelectActiveRules => true
  | _ => false
  end.

Definition is_score (c : call) : bool :=
  match c with
  | HttpPost url _ => (url =? ML_SERVER_URL)%string
  | _ => false
  end.

(** The calls one iteration of [batch_detect] makes when both store
    operations of its item succeed. *)
Definition item_calls (item : World * Transaction) : list call :=
  let r := verdict (table_of (fst item)) (fst item).(scoring) (snd item) in
  [SelectActiveRules; score_call (snd item); insert_call (snd item) r]
  ++ (if positive r then [report_call (snd item) r] else []).

(** ** Request validation *)

(** The outcome of validating a JSON payload against a pydantic model.
    [Unmodelled] marks the payloads on which the versions of the library
    differ (a number where a string is declared, a string or an integer
    where a float is declared): nothing is stated about them. *)
Inductive validated (A : Type) : Type :=
| Valid (a : A)
| Invalid
| Unmodelled.
Arguments Valid {A} a.
Arguments Invalid {A}.
Arguments Unmodelled {A}.

Definition and_then {A B} (v : validated A) (k : A -> validated B) : validated B :=
  match v with
  | Valid a => k a
  | Invalid => Invalid
  | Unmodelled => Unmodelled
  end.

(** A field declared [str]. *)
Definition required_str (items : list (string * value)) (k : string)
  : validated string :=
  match assoc k items with
  | Some (Str s) => Valid s
  | Some (Bool _) | Some (Int _) | Some (Float _) => Unmodelled
  | Some None_ | Some (List _) | Some (Dict _) | None => Invalid
  end.

(** A field declared [Optional[str] = None]. *)
Definition optional_str (items : list (string * value)) (k : string)
  : validated (option string) :=
  match assoc k items with
  | Some (Str s) => Valid (Some s)
  | Some None_ | None => Valid None
  | Some (Bool _) | Some (Int _) | Some (Float _) => Unmodelled
  | Some (List _) | Some (Dict _) => Invalid
  end.

(** A field declared [float]. *)
Definition required_float (items : list (string * value)) (k : string)
  : validated Py.float :=
  match assoc k items with
  | Some (Float f) => Valid f
  | Some (Bool _) | Some (Int _) | Some (Str _) => Unmodelled
  | Some None_ | Some (List _) | Some (Dict _) | None => Invalid
  end.

(** Validation of the body of [POST /detect] against [Transaction]; keys
    the model does not declare are ignored. *)
Definition Transaction_validate (payload : value) : validated Transaction :=
  match payload with
  | Dict items =>
      and_then (required_str items "transaction_id") (fun tid =>
      and_then (required_str items "transaction_date") (fun date =>
      and_then (required_float items "transaction_amount") (fun amount =>
      and_then (optional_str items "transaction_channel") (fun channel =>
      and_then (optional_str items "transaction_payment_mode") (fun mode =>
      and_then (optional_str items "payment_gateway_bank") (fun bank =>
      and_then (optional_str items "payer_email") (fun email =>
      and_then (optional_str items "payer_mobile") (fun mobile =>
      and_then (optional_str items "payer_card_brand") (fun brand =>
      and_then (optional_str items "payer_ip") (fun ip =>
      and_then (optional_str items "payer_browser") (fun browser =>
      and_then (optional_str items "payee_id") (fun payee =>
      Valid (mk_Transaction tid date amount channel mode bank email mobile
               brand ip browser payee)))))))))))))
  | _ => Invalid
  end.

(** ** The report server ([reportserver.py]) *)

(** [class FraudReport(BaseModel)] *)
Record FraudReport : Type := mk_FraudReport {
  report_transaction_id : string;
  reporting_entity_id : string;
  fraud_details : string
}.

Definition FraudReport_validate (payload : value) : validated FraudReport :=
  match payload with
  | Dict items =>
      and_then (required_str items "transaction_id") (fun tid =>
      and_then (required_str items "reporting_entity_id") (fun entity =>
      and_then (required_str items "fraud_details") (fun details =>
      Valid (mk_FraudReport tid entity details))))
  | _ => Invalid
  end.

(** A row of [fraud_reporting]: the tuple [values] of the INSERT. *)
Record ReportRow : Type := mk_ReportRow {
  row_transaction_id : string;
  row_reporting_entity_id : string;
  row_fraud_details : string;
  is_fraud_reported : bool
}.

(** How the database behaves during one [report_fraud]: everything works,
    something raises before [conn.commit()] returns (connecting, executing,
    committing), or [conn.close()] raises after the commit. *)
Inductive db_result : Type :=
| DbOk
| DbFailsBeforeCommit (e : exn)
| DbFailsAfterCommit (e : exn).

(** [report_fraud]: the table after the call and the dictionary returned. *)
Definition report_fraud (db : db_result) (table : list ReportRow)
  (report : FraudReport) : list ReportRow * value :=
  let values :=
    mk_ReportRow report.(report_transaction_id) report.(reporting_entity_id)
      report.(fraud_details) true in
  let attempt : list ReportRow * res unit :=
    match db with
    | DbOk => (table ++ [values], Ok tt)
    | DbFailsBeforeCommit e => (table, Raise e)
    | DbFailsAfterCommit e => (table ++ [values], Raise e)
    end in
  match attempt with
  | (table', Ok _) =>
      (table', Dict [ ("transaction_id", Str report.(report_transaction_id));
                      ("reporting_acknowledged", Bool true);
                      ("failure_code", Int 0) ])
  | (table', Raise _) =>
      (table', Dict [ ("transaction_id", Str report.(report_transaction_id));
                      ("reporting_acknowledged", Bool false);
                      ("failure_code", Int 1) ])
  end.

(** [POST /report] on a JSON body. *)
Definition report_endpoint (db : db_result) (table : list ReportRow)
  (payload : value) : validated (list ReportRow * value) :=
  and_then (FraudReport_validate payload) (fun report =>
  Valid (report_fraud db table report)).

(** ** The payment form of the front end ([main.py]) *)

(** The widgets of the form; [form_payer_ip] is the input labelled
    "Payer Device", [form_transaction_date] is [str(transaction_date)]. *)
Record PaymentForm : Type := mk_PaymentForm {
  form_transaction_id : string;
  form_transaction_date : string;
  form_transaction_amount : Py.float;
  form_transaction_channel : string;
  form_transaction_payment_mode : string;
  form_payment_gateway_bank : string;
  form_payer_email : string;
  form_payer_mobile : string;
  form_payer_card_brand : string;
  form_payer_ip : string;
  form_payer_browser : string;
  form_payee_id : string
}.

(** The dictionary [transaction_data] posted to [/detect]. *)
Definition transaction_data (f : PaymentForm) : value :=
  Dict [ ("transaction_amount", Float f.(form_transaction_amount));
         ("transaction_date", Str f.(form_transaction_date));
         ("transaction_channel", Str f.(form_transaction_channel));
         ("transaction_payment_mode", Str f.(form_transaction_payment_mode));
         ("payment_gateway_bank", Str f.(form_payment_gateway_bank));
         ("payer_browser", Str f.(form_payer_browser));
         ("payer_email", Str f.(form_payer_email));
         ("payer_device", Str f.(form_payer_ip));
         ("payer_mobile", Str f.(form_payer_mobile));
         ("transaction_id", Str f.(form_transaction_id));
         ("payee_id", Str f.(form_payee_id));
         ("payer_card_brand", Str f.(form_payer_card_brand)) ].

(** What the page shows: [st.error], [st.success] and [st.warning] with
    their text (the icon of a warning is left out), and the
    [st.error(f"❌ Error processing transaction: {str(e)}")] of the outer
    handler, kept with its exception. *)
Inductive level : Type := StError | StSuccess | StWarning.

Inductive message : Type :=
| Shown (l : level) (text : string)
| ProcessingError (e : exn).

(** A computation of the page shows messages and returns or raises. *)
Definition Ui (A : Type) : Type := list message -> list message * res A.

Definition ui_ret {A} (a : A) : Ui A := fun shown => (shown, Ok a).

Definition ui_bind {A B} (m : Ui A) (k : A -> Ui B) : Ui B :=
  fun shown =>
    match m shown with
    | (shown', Ok a) => k a shown'
    | (shown', Raise e) => (shown', Raise e)
    end.

Definition ui_lift {A} (r : res A) : Ui A := fun shown => (shown, r).

Definition show (l : level) (text : string) : Ui unit :=
  fun shown => (shown ++ [Shown l text], Ok tt).

(** [try: m  except C: h], where [caught] tells the exceptions of class [C]. *)
Definition ui_try {A} (caught : exn -> bool) (m : Ui A) (h : exn -> Ui A) : Ui A :=
  fun shown =>
    match m shown with
    | (shown', Ok a) => (shown', Ok a)
    | (shown', Raise e) => if caught e then h e shown' else (shown', Raise e)
    end.

(** The exceptions under [requests.exceptions.RequestException].  Whether
    the error of [response.json()] is one of them depends on the version of
    the library, hence the parameter. *)
Definition is_request_exception (json_error_is_one : bool) (e : exn) : bool :=
  match e with
  | HTTPError | ConnectionError | Timeout => true
  | JSONDecodeError => json_error_is_one
  | _ => false
  end.

(** [x[k]] for a string key. *)
Definition getitem (x : value) (k : string) : res value :=
  match x with
  | Dict items =>
      match assoc k items with
      | Some v => Ok v
      | None => Raise KeyError
      end
  | _ => Raise TypeError
  end.

Fixpoint all_str (l : list value) : option (list string) :=
  match l with
  | [] => Some []
  | Str s :: rest =>
      match all_str rest with
      | Some strs => Some (s :: strs)
      | None => None
      end
  | _ :: _ => None
  end.

(** [', '.join(x)]: [x] is iterated, and every item must be a string. *)
Definition join_value (x : value) : res string :=
  match x with
  | List l =>
      match all_str l with
      | Some strs => Ok (join ", " strs)
      | None => Raise TypeError
      end
  | Str s => Ok (join ", " (characters s))
  | Dict items => Ok (join ", " (map fst items))
  | None_ | Bool _ | Int _ | Float _ => Raise TypeError
  end.

Notation "x <~ m ;; k" := (ui_bind m (fun x => k))
  (at level 61, m at next level, right associativity).
Notation "m ~;; k" := (ui_bind m (fun _ => k))
  (at level 61, right associativity).

(** The simulated check shown when the API cannot be used. *)
Definition simulation (transaction_data : PaymentForm) : Ui unit :=
  show StWarning "⚠️ API connection error: Using simulation mode" ~;;
  let amount := transaction_data.(form_transaction_amount) in
  let is_fraud := float_gt amount (float_of_Z 5000) in
  if is_fraud
  then show StError "🚨 Fraud Detected! (Simulation)
Reasons: Amount exceeds threshold"
  else show StSuccess "✅ Transaction is NOT Fraudulent! (Simulation)".

(** What happens on "Check for Fraud", given the answer of
    [requests.post(API_URL, json=transaction_data)]. *)
Definition payment_check (json_error_is_request_exception : bool)
  (answer : res Response) (f : PaymentForm) : Ui unit :=
  ui_try (fun _ => true)
    (ui_try (is_request_exception json_error_is_request_exception)
       (response <~ ui_lift answer ;;
        if response.(status_code) =? 200 then
          result <~ ui_lift (match response.(body) with
                             | Some v => Ok v
                             | None => Raise JSONDecodeError
                             end) ;;
          by_rule <~ ui_lift (getitem result "is_fraud_rule") ;;
          (if truthy by_rule then
             reasons <~ ui_lift (getitem result "fraud_reasons") ;;
             joined <~ ui_lift (join_value reasons) ;;
             show StError ("🚨 Fraud Detected via Rule Engine!
Reasons: " ++ joined)%string
           else show StSuccess "✅ Transaction is NOT Fraudulent Rule wise!") ~;;
          by_ai <~ ui_lift (getitem result "is_fraud_predicted") ;;
          (if truthy by_ai then show StError "🚨 Fraud Detected via AI!"
           else show StSuccess "✅ Transaction is NOT Fraudulent via AI!") ~;;
          (if truthy by_rule || truthy by_ai
           then show StWarning "Fraud Reported"
           else ui_ret tt)
        else simulation f)
       (fun _ => simulation f))
    (fun e shown => (shown ++ [ProcessingError e], Ok tt)).

(** The JSON body of a 200 answer of [/detect]: the dictionary [detect]
    returns. *)
Definition DetectResult_json (r : DetectResult) : value :=
  Dict [ ("transaction_id", Str r.(rule_part).(rr_transaction_id));
         ("is_fraud_rule", Bool r.(rule_part).(is_fraud_rule));
         ("fraud_source", Str r.(rule_part).(fraud_source));
         ("fraud_reasons", List (map Str r.(rule_part).(fraud_reasons)));
         ("is_fraud_predicted", r.(is_fraud_predicted)) ].

(** What the page shows for a verdict. *)
Definition verdict_messages (r : DetectResult) : list message :=
  [ if r.(rule_part).(is_fraud_rule)
    then Shown StError ("🚨 Fraud Detected via Rule Engine!
Reasons: " ++ join ", " r.(rule_part).(fraud_reasons))%string
    else Shown StSuccess "✅ Transaction is NOT Fraudulent Rule wise!";
    if truthy r.(is_fraud_predicted)
    then Shown StError "🚨 Fraud Detected via AI!"
    else Shown StSuccess "✅ Transaction is NOT Fraudulent via AI!" ]
  ++ (if positive r then [Shown StWarning "Fraud Reported"] else []).

Definition sample_form : PaymentForm :=
  mk_PaymentForm "T9" "2025-01-01" (float_of_Z 6000) "Web" "Card" "" "" "" ""
    "1.2.3.4" "" "".

(** ** Dashboard helpers ([utils.py]) *)

Definition get_time_granularity (time_frame : string) : string :=
  if (time_frame =? "Last 7 days")%string then "D"
  else if (time_frame =? "Last 30 days")%string then "D"
  else if (time_frame =? "Last 90 days")%string then "W"
  else if (time_frame =? "Last year")%string then "M"
  else "M".

(** A row of the dashboard's data frame once [process_data] has run: ids
    are strings, the flags booleans; [Timestamp_date] is the date of the
    timestamp (days since a fixed day), [Timestamp_time] its time of day. *)
Record DataRow : Type := mk_DataRow {
  Transaction_ID : string;
  Timestamp_date : Z;
  Timestamp_time : Z;
  Payer_ID : string;
  Payee_ID : string;
  row_is_fraud_predicted : bool;
  row_is_fraud_rule : bool;
  Transaction_Channel : string;
  Transaction_Payment_Mode : string;
  Payment_Gateway_Bank : string;
  Amount : Py.float
}.

(** [series.isin(values)] on strings. *)
Definition isin (x : string) (values : list string) : bool :=
  existsb (String.eqb x) values.

(** [filter_data].  Two library functions are parameters: [is_blank s] is
    [s.strip() == ""], and [contains pat] is the test
    [Series.str.contains(pat, case=False, na=False)] makes on each
    [Transaction_ID], which raises when [pat] is not a regular expression. *)
Definition filter_data
  (is_blank : string -> bool) (contains : string -> res (string -> bool))
  (data : list DataRow) (date_range : option (list Z))
  (payer_id payee_id : option (list string)) (transaction_id : option string)
  : res (list DataRow) :=
  let filtered_data := data in
  let filtered_data :=
    match date_range with
    | Some [start_date; end_date] =>
        filter (fun row => (start_date <=? row.(Timestamp_date))
                           && (row.(Timestamp_date) <=? end_date))
          filtered_data
    | _ => filtered_data
    end in
  let filtered_data :=
    match payer_id with
    | Some (p :: ps) => filter (fun row => isin row.(Payer_ID) (p :: ps)) filtered_data
    | _ => filtered_data
    end in
  let filtered_data :=
    match payee_id with
    | Some (p :: ps) => filter (fun row => isin row.(Payee_ID) (p :: ps)) filtered_data
    | _ => filtered_data
    end in
  match transaction_id with
  | Some pat =>
      if negb (is_blank pat) then
        match contains pat with
        | Ok test => Ok (filter (fun row => test row.(Transaction_ID)) filtered_data)
        | Raise e => Raise e
        end
      else Ok filtered_data
  | None => Ok filtered_data
  end.

(** [l] is [data] with some rows left out, the order kept. *)
Fixpoint is_subsequence (l data : list DataRow) : Prop :=
  match l, data with
  | [], _ => True
  | _ :: _, [] => False
  | x :: l', y :: data' =>
      (x = y /\ is_subsequence l' data') \/ is_subsequence l data'
  end.

(** Whether a rule applies to a transaction, read off the five conditions
    of the loop: the threshold condition of a "Threshold Value" row, and
    for each blocked column a non-empty value equal to the transaction's
    field. *)
Definition triggered (t : Transaction) (r : Rule) : bool :=
  match r.(threshold) with
  | Some th =>
      opt_str_eqb r.(rule_type) (Some "Threshold Value")
      && float_gt t.(transaction_amount) (as_float th)
  | None => false
  end
  || (str_truthy r.(blocked_ip) && opt_str_eqb t.(payer_ip) r.(blocked_ip))
  || (str_truthy r.(blocked_payer_browser)
      && opt_str_eqb t.(payer_browser) r.(blocked_payer_browser))
  || (str_truthy r.(blocked_payment_gateway)
      && opt_str_eqb t.(payment_gateway_bank) r.(blocked_payment_gateway))
  || (str_truthy r.(blocked_email)
      && opt_str_eqb t.(payer_email) r.(blocked_email)).

(** A rule set on which [tx6000] hits the first and the last rule and
    misses the one between. *)
Definition hit_miss_hit : list Rule :=
  [ threshold_row th1000;
    blocked_row BlockedEmail (Some "x@y.z");
    blocked_row BlockedIP (Some "1.2.3.4") ].

(** ** Rule evaluation, iteration by iteration *)

Lemma loop_body_parts (t : Transaction) (r : Rule) (f : bool) (rs : list string) :
  loop_body t (f, rs) r = (f || negb (is_nil (parts t r)), rs ++ parts t r).
Proof.
  unfold loop_body, parts, threshold_part, blocked_part, threshold_reason.
  destruct (threshold r) as [th|]; simpl.
  - destruct (opt_str_eqb (rule_type r) (Some "Threshold Value")); simpl;
      [ destruct (float_gt (transaction_amount t) (as_float th)); simpl | ];
      repeat match goal with
        | |- context [if ?c then flag _ _ else _] => destruct c; simpl
        end;
      unfold flag; simpl;
      rewrite <- ?app_assoc, ?app_nil_r, ?orb_true_r, ?orb_false_r; reflexivity.
  - repeat match goal with
      | |- context [if ?c then flag _ _ else _] => destruct c; simpl
      end;
      unfold flag; simpl;
      rewrite <- ?app_assoc, ?app_nil_r, ?orb_true_r, ?orb_false_r; reflexivity.
Qed.

Lemma rule_reasons_parts (t : Transaction) (r : Rule) :
  rule_reasons t r = parts t r.
Proof. unfold rule_reasons. now rewrite loop_body_parts. Qed.

Lemma rule_triggers_parts (t : Transaction) (r : Rule) :
  rule_triggers t r = negb (is_nil (parts t r)).
Proof. unfold rule_triggers. now rewrite loop_body_parts. Qed.

Lemma loop_body_acc (t : Transaction) (r : Rule) (f : bool) (rs : list string) :
  loop_body t (f, rs) r = (f || rule_triggers t r, rs ++ rule_reasons t r).
Proof. now rewrite rule_reasons_parts, rule_triggers_parts, loop_body_parts. Qed.

Lemma fold_loop_body (t : Transaction) (rules : list Rule) :
  forall f rs,
    fold_left (loop_body t) rules (f, rs)
    = (f || existsb (rule_triggers t) rules,
       rs ++ flat_map (rule_reasons t) rules).
Proof.
  induction rules as [|r rules IH]; intros f rs; simpl.
  - now rewrite orb_false_r, app_nil_r.
  - rewrite loop_body_acc, IH, orb_assoc, app_assoc. reflexivity.
Qed.

(** ** Meaning of the individual checks *)

Lemma opt_str_eqb_eq (a b : option string) : opt_str_eqb a b = true <-> a = b.
Proof.
  destruct a as [x|], b as [y|]; simpl; split; intros H;
    try discriminate; try reflexivity.
  - apply String.eqb_eq in H. now subst.
  - injection H as ->. apply String.eqb_refl.
Qed.

Lemma blocked_part_fires (label : string) (field blocked : option string) :
  forall s, blocked = Some s -> s <> "" -> field = Some s ->
    blocked_part label field blocked = [(label ++ s)%string].
Proof.
  intros s -> Hs ->. unfold blocked_part; simpl.
  apply String.eqb_neq in Hs. rewrite Hs, String.eqb_refl. reflexivity.
Qed.

Lemma blocked_part_silent (label : string) (field blocked : option string) :
  (forall s, ~ (blocked = Some s /\ s <> "" /\ field = Some s)) ->
  blocked_part label field blocked = [].
Proof.
  intros H. unfold blocked_part.
  destruct (str_truthy blocked && opt_str_eqb field blocked) eqn:E; [|reflexivity].
  apply andb_true_iff in E as [E1 E2]. apply opt_str_eqb_eq in E2. subst field.
  destruct blocked as [s|]; [|discriminate]. simpl in E1.
  exfalso. apply (H s). repeat split.
  intros ->. discriminate.
Qed.

Lemma in_blocked_part (label : string) (field blocked : option string) (x : string) :
  In x (blocked_part label field blocked)
  <-> exists s, blocked = Some s /\ s <> "" /\ field = Some s
                /\ x = (label ++ s)%string.
Proof.
  split.
  - unfold blocked_part.
    destruct (str_truthy blocked && opt_str_eqb field blocked) eqn:E; [|intros []].
    apply andb_true_iff in E as [E1 E2]. apply opt_str_eqb_eq in E2. subst field.
    destruct blocked as [s|]; [|discriminate]. simpl in E1.
    intros [<-|[]]. exists s. repeat split. intros ->. discriminate.
  - intros (s & Hb & Hs & Hf & ->).
    rewrite (blocked_part_fires label field blocked s Hb Hs Hf). now left.
Qed.

Lemma in_threshold_part (t : Transaction) (r : Rule) (x : string) :
  In x (threshold_part t r)
  <-> exists th, r.(threshold) = Some th
                 /\ r.(rule_type) = Some "Threshold Value"
                 /\ float_gt t.(transaction_amount) (as_float th) = true
                 /\ x = threshold_reason th.
Proof.
  unfold threshold_part. split.
  - destruct (threshold r) as [th|]; [|intros []].
    destruct (opt_str_eqb (rule_type r) (Some "Threshold Value")
              && float_gt (transaction_amount t) (as_float th)) eqn:E; [|intros []].
    apply andb_true_iff in E as [E1 E2]. apply opt_str_eqb_eq in E1.
    intros [<-|[]]. now exists th.
  - intros (th & -> & -> & -> & ->). simpl. now left.
Qed.

Lemma float_gt_irrefl (x : Py.float) : float_gt x x = false.
Proof.
  unfold float_gt, SFltb.
  destruct x as [s|s| |s m e]; simpl; try reflexivity; destruct s; try reflexivity;
    rewrite Z.compare_refl, Pos.compare_cont_refl; reflexivity.
Qed.

Lemma label_injective (label a b : string) :
  (label ++ a)%string = (label ++ b)%string -> a = b.
Proof.
  induction label as [|c label IH]; simpl; intros H; [assumption|].
  injection H as H. now apply IH.
Qed.

(** Reasons of different checks never coincide: they differ in their fixed
    prefixes. *)
Ltac clash :=
  match goal with
  | H : (_ ++ _)%string = (_ ++ _)%string |- _ =>
      unfold threshold_reason in H; simpl in H; congruence
  | H : threshold_reason _ = (_ ++ _)%string |- _ =>
      unfold threshold_reason in H; simpl in H; congruence
  | H : (_ ++ _)%string = threshold_reason _ |- _ =>
      unfold threshold_reason in H; simpl in H; congruence
  end.

Lemma in_parts (t : Transaction) (r : Rule) (x : string) :
  In x (parts t r)
  <-> In x (threshold_part t r)
      \/ exists k, In x (blocked_part (label_of k) (field_of k t) (column_of k r)).
Proof.
  unfold parts. rewrite !in_app_iff. split.
  - intros [H|[H|[H|[H|H]]]]; [now left | right ..].
    + now exists BlockedIP.
    + now exists BlockedBrowser.
    + now exists BlockedGateway.
    + now exists BlockedEmail.
  - intros [H|[[] H]]; simpl in H; tauto.
Qed.

Lemma in_reasons_blocked (k : blocked_kind) (t : Transaction) (r : Rule) (s : string) :
  In (label_of k ++ s)%string (rule_reasons t r)
  <-> column_of k r = Some s /\ s <> "" /\ field_of k t = Some s.
Proof.
  rewrite rule_reasons_parts, in_parts. split.
  - intros [H|[k' H]].
    + apply in_threshold_part in H as (th & _ & _ & _ & H).
      destruct k; clash.
    + apply in_blocked_part in H as (s' & Hc & Hs & Hf & H).
      destruct k, k'; try clash; apply label_injective in H; subst s'; auto.
  - intros (Hc & Hs & Hf). right. exists k.
    apply in_blocked_part. now exists s.
Qed.

Lemma in_reasons_threshold (t : Transaction) (r : Rule) (th : db_number) :
  r.(threshold) = Some th ->
  (In (threshold_reason th) (rule_reasons t r)
   <-> r.(rule_type) = Some "Threshold Value"
       /\ float_gt t.(transaction_amount) (as_float th) = true).
Proof.
  intros Hth. rewrite rule_reasons_parts, in_parts. split.
  - intros [H|[k H]].
    + apply in_threshold_part in H as (th' & Hth' & Hty & Hgt & H).
      rewrite Hth in Hth'. injection Hth' as <-. auto.
    + apply in_blocked_part in H as (s' & _ & _ & _ & H). destruct k; clash.
  - intros [Hty Hgt]. left. apply in_threshold_part. now exists th.
Qed.

Lemma triggers_iff_reason (t : Transaction) (r : Rule) :
  rule_triggers t r = true <-> exists x, In x (rule_reasons t r).
Proof.
  rewrite rule_triggers_parts, rule_reasons_parts.
  destruct (parts t r) as [|x l]; simpl; split.
  - discriminate.
  - intros [x []].
  - intros _. exists x. now left.
  - reflexivity.
Qed.

(** ** Rule evaluation as a whole *)

Lemma check_transaction_on_spec (rules : list Rule) (t : Transaction) :
  check_transaction_on rules t
  = {| rr_transaction_id := t.(transaction_id);
       is_fraud_rule := existsb (rule_triggers t) rules;
       fraud_source := "rule";
       fraud_reasons := flat_map (rule_reasons t) rules |}.
Proof.
  unfold check_transaction_on. rewrite fold_loop_body. reflexivity.
Qed.

Lemma check_transaction_run (table : list Rule) (sc rp : res Response)
  (ins : res unit) (t : Transaction) :
  run (check_transaction (mk_World (Ok table) sc rp ins) t)
  = ([SelectActiveRules], Ok (check_transaction_on (active table) t)).
Proof. reflexivity. Qed.

(** C6. A row of type "Threshold Value" with threshold [th] appends its
    reason exactly when the transaction's amount is strictly greater than
    [float(th)]; an amount equal to the threshold does not trigger; the
    reason contains the threshold as the f-string prints it; and the hit
    shows in the result of the whole evaluation. *)
Theorem threshold_rule_triggers_iff_amount_greater
  (t : Transaction) (r : Rule) (th : db_number) :
  r.(rule_type) = Some "Threshold Value" ->
  r.(threshold) = Some th ->
  (In (threshold_reason th) (rule_reasons t r)
   <-> float_gt t.(transaction_amount) (as_float th) = true)
  /\ rule_triggers t (threshold_row th)
     = float_gt t.(transaction_amount) (as_float th)
  /\ (t.(transaction_amount) = as_float th ->
      ~ In (threshold_reason th) (rule_reasons t r)
      /\ rule_triggers t (threshold_row th) = false)
  /\ contains (as_text th) (threshold_reason th)
  /\ (forall rules,
        In r rules ->
        float_gt t.(transaction_amount) (as_float th) = true ->
        is_fraud_rule (check_transaction_on rules t) = true
        /\ In (threshold_reason th) (fraud_reasons (check_transaction_on rules t))).
Proof.
  intros Hty Hth.
  assert (Hiff := in_reasons_threshold t r th Hth).
  assert (Hrow : rule_triggers t (threshold_row th)
                 = float_gt (transaction_amount t) (as_float th)).
  { rewrite rule_triggers_parts. unfold parts, threshold_part, blocked_part; simpl.
    now destruct (float_gt (transaction_amount t) (as_float th)). }
  repeat split.
  - intros H. now apply Hiff in H.
  - intros H. apply Hiff. now split.
  - assumption.
  - intros Hin. apply Hiff in Hin as [_ Hgt].
    rewrite H, float_gt_irrefl in Hgt. discriminate.
  - rewrite Hrow, H. apply float_gt_irrefl.
  - exists "High transaction amount (> ", ")". reflexivity.
  - rewrite check_transaction_on_spec; simpl.
    apply existsb_exists. exists r. split; [assumption|].
    apply triggers_iff_reason. exists (threshold_reason th). apply Hiff. now split.
  - rewrite check_transaction_on_spec; simpl.
    apply in_flat_map. exists r. split; [assumption|]. apply Hiff. now split.
Qed.

Lemma threshold_rule_triggers_iff_amount_greater_witness :
  rule_triggers tx6000 (threshold_row th1000) = true
  /\ rule_triggers tx1000 (threshold_row th1000) = false
  /\ fraud_reasons (check_transaction_on [threshold_row th1000] tx6000)
     = ["High transaction amount (> 1000.0)"].
Proof.
  destruct (threshold_rule_triggers_iff_amount_greater
              tx6000 (threshold_row th1000) th1000 eq_refl eq_refl)
    as (_ & H6 & _).
  destruct (threshold_rule_triggers_iff_amount_greater
              tx1000 (threshold_row th1000) th1000 eq_refl eq_refl)
    as (_ & H1 & _).
  split; [rewrite H6; reflexivity|].
  split; [rewrite H1; reflexivity|].
  reflexivity.
Defined.

Lemma blocked_row_parts (k : blocked_kind) (value : option string) (t : Transaction) :
  parts t (blocked_row k value) = blocked_part (label_of k) (field_of k t) value.
Proof.
  unfold parts, threshold_part.
  destruct k; unfold blocked_part; simpl; rewrite ?app_nil_r; reflexivity.
Qed.


Lemma triggered_parts (t : Transaction) (r : Rule) :
  triggered t r = negb (is_nil (parts t r)).
Proof.
  unfold triggered, parts, threshold_part, blocked_part.
  destruct (threshold r) as [th|];
    repeat match goal with
      | |- context [if ?c then _ else _] => destruct c
      end; reflexivity.
Qed.

Lemma existsb_triggered (t : Transaction) (rules : list Rule) :
  existsb (rule_triggers t) rules = existsb (triggered t) rules.
Proof.
  induction rules as [|r rules IH]; simpl; [reflexivity|].
  now rewrite IH, rule_triggers_parts, triggered_parts.
Qed.

Lemma flat_map_parts (t : Transaction) (rules : list Rule) :
  flat_map (rule_reasons t) rules = flat_map (parts t) rules.
Proof.
  induction rules as [|r rules IH]; simpl; [reflexivity|].
  now rewrite IH, rule_reasons_parts.
Qed.

(** C8. On the rules handed over by the store, the evaluation's flag is the
    disjunction over the rules of the five conditions, and its reasons are
    the reasons of the conditions that hold, rule after rule in the order
    of the rule set and check after check within a rule: a rule is
    evaluated whatever the earlier rules gave, evaluating a longer rule set
    only appends, and a repeated rule repeats its reasons.  On a rule set
    hit twice with a miss between, the result is the flag and the two
    reasons in order; with no active rule it is
    [{is_fraud_rule: False, fraud_reasons: []}]; and the only call made is
    the read of the rule table. *)
Theorem rule_evaluation_is_or_of_rules_in_order (t : Transaction) :
  (forall rules,
      is_fraud_rule (check_transaction_on rules t) = existsb (triggered t) rules
      /\ fraud_reasons (check_transaction_on rules t) = flat_map (parts t) rules)
  /\ check_transaction_on hit_miss_hit tx6000
     = {| rr_transaction_id := "T1"; is_fraud_rule := true;
          fraud_source := "rule";
          fraud_reasons := [ "High transaction amount (> 1000.0)";
                             "Blocked IP: 1.2.3.4" ] |}
  /\ fraud_reasons
       (check_transaction_on
          [blocked_row BlockedIP (Some "1.2.3.4");
           blocked_row BlockedIP (Some "1.2.3.4")] tx6000)
     = ["Blocked IP: 1.2.3.4"; "Blocked IP: 1.2.3.4"]
  /\ check_transaction_on hit_miss_hit tx1000
     = {| rr_transaction_id := "T2"; is_fraud_rule := false;
          fraud_source := "rule"; fraud_reasons := [] |}
  /\ (forall rules,
        is_fraud_rule (check_transaction_on rules t) = existsb (rule_triggers t) rules
        /\ fraud_reasons (check_transaction_on rules t)
           = flat_map (rule_reasons t) rules)
  /\ (forall rules1 rules2,
        fraud_reasons (check_transaction_on (rules1 ++ rules2) t)
        = fraud_reasons (check_transaction_on rules1 t)
          ++ fraud_reasons (check_transaction_on rules2 t)
        /\ is_fraud_rule (check_transaction_on (rules1 ++ rules2) t)
           = is_fraud_rule (check_transaction_on rules1 t)
             || is_fraud_rule (check_transaction_on rules2 t))
  /\ (forall r,
        fraud_reasons (check_transaction_on [r; r] t)
        = rule_reasons t r ++ rule_reasons t r)
  /\ check_transaction_on [] t
     = {| rr_transaction_id := t.(transaction_id); is_fraud_rule := false;
          fraud_source := "rule"; fraud_reasons := [] |}
  /\ (forall table sc rp ins,
        run (check_transaction (mk_World (Ok table) sc rp ins) t)
        = ([SelectActiveRules], Ok (check_transaction_on (active table) t))
        /\ (active table = [] ->
            outcome (check_transaction (mk_World (Ok table) sc rp ins) t)
            = Ok {| rr_transaction_id := t.(transaction_id);
                    is_fraud_rule := false;
                    fraud_source := "rule"; fraud_reasons := [] |})).
Proof.
  split.
  { intros rules. rewrite check_transaction_on_spec; simpl.
    now rewrite existsb_triggered, flat_map_parts. }
  split; [reflexivity|]. split; [reflexivity|]. split; [reflexivity|].
  split; [intros rules; now rewrite check_transaction_on_spec|].
  split.
  { intros rules1 rules2. rewrite !check_transaction_on_spec; simpl.
    now rewrite flat_map_app, existsb_app. }
  split.
  { intros r. rewrite check_transaction_on_spec; simpl. now rewrite app_nil_r. }
  split; [reflexivity|].
  intros table sc rp ins. split; [reflexivity|].
  intros Hnone. unfold outcome. rewrite check_transaction_run, Hnone. reflexivity.
Qed.

Lemma rule_evaluation_is_or_of_rules_in_order_witness :
  is_fraud_rule (check_transaction_on hit_miss_hit tx6000) = true
  /\ fraud_reasons (check_transaction_on hit_miss_hit tx6000)
     = ["High transaction amount (> 1000.0)"; "Blocked IP: 1.2.3.4"]
  /\ map (triggered tx6000) hit_miss_hit = [true; false; true].
Proof.
  destruct (proj1 (rule_evaluation_is_or_of_rules_in_order tx6000) hit_miss_hit)
    as [Hflag Hreasons].
  rewrite Hflag, Hreasons. repeat split.
Defined.



(** ** The handlers, call by call *)

Lemma get_ml_prediction_run (w : World) (tx : value) (log : list call) :
  get_ml_prediction w tx log
  = (log ++ [HttpPost ML_SERVER_URL tx], Ok (prediction_of w.(scoring))).
Proof.
  unfold get_ml_prediction, try_except, bind, requests_post, emit, lift,
    prediction_of, raise_for_status, response_json, error_status.
  destruct (scoring w) as [[status doc]|e]; simpl; [|reflexivity].
  destruct ((400 <=? status) && (status <? 600)); simpl; [reflexivity|].
  destruct doc as [doc|]; simpl; [|reflexivity].
  destruct doc as [ |b|z|f|s|l|items]; simpl; try reflexivity.
  destruct (assoc "prediction" items) as [p|]; simpl; [|reflexivity].
  destruct p as [ |b|z|f|s|l|items']; simpl; try reflexivity.
  - destruct (characters s); reflexivity.
  - destruct l; reflexivity.
Qed.

Lemma send_fraud_report_run (w : World) (tid details : string) (log : list call) :
  send_fraud_report w tid details log
  = (log ++ [HttpPost REPORT_API_URL (report_data tid details)], Ok tt).
Proof.
  unfold send_fraud_report, try_except, bind, requests_post, emit, lift, ret.
  destruct (reporting w); reflexivity.
Qed.

Lemma upload_transaction_run (w : World) (t : Transaction) (b : bool) (p : value)
  (log : list call) :
  upload_transaction w t b p log
  = (log ++ [InsertTransaction (insert_values t b p)], w.(store_insert)).
Proof.
  unfold upload_transaction, bind, emit, lift. simpl.
  destruct (store_insert w); reflexivity.
Qed.

Lemma check_transaction_at (w : World) (t : Transaction) (log : list call) :
  check_transaction w t log
  = (log ++ [SelectActiveRules],
     match w.(store_rules) with
     | Ok table => Ok (check_transaction_on (active table) t)
     | Raise e => Raise e
     end).
Proof.
  unfold check_transaction, fetch_rules, bind, emit, lift, ret. simpl.
  destruct (store_rules w); reflexivity.
Qed.

(** [detect] when the rule table can be read. *)
Lemma detect_run (table : list Rule) (sc rp : res Response) (ins : res unit)
  (t : Transaction) (log : list call) :
  let r := verdict table sc t in
  detect (mk_World (Ok table) sc rp ins) t log
  = (log ++ [SelectActiveRules; score_call t]
         ++ (if positive r then [report_call t r] else [])
         ++ [insert_call t r],
     match ins with
     | Ok _ => Ok r
     | Raise e => Raise e
     end).
Proof.
  intros r. unfold detect.
  unfold bind at 1. rewrite check_transaction_at. simpl store_rules. cbv iota beta.
  unfold bind at 1. rewrite get_ml_prediction_run. simpl scoring. cbv iota beta.
  fold (verdict table sc t). fold r. fold (positive r).
  unfold bind at 1.
  destruct (positive r) eqn:Hp.
  - rewrite send_fraud_report_run. unfold bind at 1.
    rewrite upload_transaction_run. simpl store_insert.
    rewrite <- !app_assoc. simpl.
    destruct ins as [[]|e]; reflexivity.
  - unfold ret at 1. unfold bind at 1.
    rewrite upload_transaction_run. simpl store_insert.
    rewrite <- !app_assoc. simpl.
    destruct ins as [[]|e]; reflexivity.
Qed.

(** [detect] when the rule table cannot be read. *)
Lemma detect_store_down (e : exn) (sc rp : res Response) (ins : res unit)
  (t : Transaction) (log : list call) :
  detect (mk_World (Raise e) sc rp ins) t log = (log ++ [SelectActiveRules], Raise e).
Proof.
  unfold detect. unfold bind at 1. rewrite check_transaction_at. reflexivity.
Qed.

(** One iteration of [batch_detect]. *)
Lemma batch_item_run (table : list Rule) (sc rp : res Response) (ins : res unit)
  (t : Transaction) (log : list call) :
  let r := verdict table sc t in
  batch_item (mk_World (Ok table) sc rp ins) t log
  = match ins with
    | Ok _ =>
        (log ++ [SelectActiveRules; score_call t; insert_call t r]
             ++ (if positive r then [report_call t r] else []),
         Ok (entry_of table sc t))
    | Raise e =>
        (log ++ [SelectActiveRules; score_call t; insert_call t r], Raise e)
    end.
Proof.
  intros r. unfold batch_item.
  unfold bind at 1. rewrite check_transaction_at. simpl store_rules. cbv iota beta.
  unfold bind at 1. rewrite get_ml_prediction_run. simpl scoring. cbv iota beta.
  fold (verdict table sc t). fold r. fold (positive r).
  unfold bind at 1. rewrite upload_transaction_run. simpl store_insert.
  rewrite <- !app_assoc. simpl.
  destruct ins as [[]|e]; [|reflexivity].
  unfold bind at 1.
  destruct (positive r) eqn:Hp.
  - rewrite send_fraud_report_run. rewrite <- !app_assoc. reflexivity.
  - reflexivity.
Qed.

Lemma batch_item_store_down (e : exn) (sc rp : res Response) (ins : res unit)
  (t : Transaction) (log : list call) :
  batch_item (mk_World (Raise e) sc rp ins) t log
  = (log ++ [SelectActiveRules], Raise e).
Proof.
  unfold batch_item. unfold bind at 1. rewrite check_transaction_at. reflexivity.
Qed.

(** ** The scoring client *)

Lemma assoc_ml_predict (api_data : value) (prediction : bool) (doc : value) :
  ml_predict api_data prediction = Ok doc ->
  exists tid,
    doc = Dict [ ("transaction_id", tid);
                 ("is_fraud", Int (if prediction then 0 else 1)) ].
Proof.
  unfold ml_predict.
  destruct (get api_data "transaction_id" (Str "")) as [tid|e]; [|discriminate].
  intros H. injection H as <-. exists tid. now destruct prediction.
Qed.

(** C3. A body without a ["prediction"] key makes [get_ml_prediction]
    return [None], whatever the status; every answer [ml_predict] builds is
    such a body, so against this scoring server the client returns [None]
    for each value of the model's bit, and the verdict [detect] computes and
    writes has [is_fraud_predicted = None]. *)
Theorem scoring_server_answer_gives_none
  (status : Z) (items : list (string * value)) :
  assoc "prediction" items = None ->
  (forall w tx log,
      w.(scoring) = Ok {| status_code := status; body := Some (Dict items) |} ->
      get_ml_prediction w tx log = (log ++ [HttpPost ML_SERVER_URL tx], Ok None_))
  /\ (forall api_data prediction doc table rp ins t,
        ml_predict api_data prediction = Ok doc ->
        let w := mk_World (Ok table)
                   (Ok {| status_code := status; body := Some doc |}) rp ins in
        outcome (get_ml_prediction w (Transaction_dict t)) = Ok None_
        /\ is_fraud_predicted (verdict table w.(scoring) t) = None_
        /\ outcome (detect w t)
           = match ins with
             | Ok _ => Ok {| rule_part := check_transaction_on (active table) t;
                             is_fraud_predicted := None_ |}
             | Raise e => Raise e
             end).
Proof.
  intros Hno. split.
  - intros w tx log Hw. rewrite get_ml_prediction_run, Hw.
    unfold prediction_of; simpl. rewrite Hno.
    now destruct (error_status status).
  - intros api_data prediction doc table rp ins t Hdoc w.
    apply assoc_ml_predict in Hdoc as [tid ->].
    assert (Hp : prediction_of (scoring w) = None_).
    { unfold w, prediction_of; simpl. now destruct (error_status status). }
    repeat split.
    + unfold outcome, run. rewrite get_ml_prediction_run, Hp. reflexivity.
    + assumption.
    + unfold outcome, run, w. rewrite detect_run. simpl snd.
      unfold verdict. fold w. simpl scoring in Hp. rewrite Hp. reflexivity.
Qed.

Lemma scoring_server_answer_gives_none_witness :
  get_ml_prediction
    (calm_world []
       {| status_code := 200;
          body := Some (Dict [("transaction_id", Str "T1"); ("is_fraud", Int 1)]) |})
    (Transaction_dict tx6000) []
  = ([HttpPost ML_SERVER_URL (Transaction_dict tx6000)], Ok None_).
Proof.
  apply (proj1 (scoring_server_answer_gives_none 200
                  [("transaction_id", Str "T1"); ("is_fraud", Int 1)] eq_refl)).
  reflexivity.
Defined.

(** C1, as the specification states it, fails for both wire formats of the
    bit: a bare number is answered by [None], a one-element list is passed
    on as it is. *)
Lemma inverts_scoring_bit_fails :
  ~ inverts_scoring_bit Int /\ ~ inverts_scoring_bit (fun p => List [Int p]).
Proof.
  split; intros H.
  - destruct (H [] tx1000 1 (or_intror eq_refl)) as (r & Hr & Hnone & _).
    unfold outcome, run, calm_world in Hr. rewrite detect_run in Hr.
    injection Hr as <-. now apply Hnone.
  - destruct (H [] tx1000 1 (or_intror eq_refl)) as (r & Hr & _ & Htruthy).
    unfold outcome, run, calm_world in Hr. rewrite detect_run in Hr.
    injection Hr as <-. discriminate.
Qed.

(** C1, amended. When the store answers and the scoring call succeeds with a
    body whose ["prediction"] is a non-empty list, [is_fraud_predicted] is
    the list's first element, unchanged: [[1]] gives [1], which counts as
    fraud and has the report dispatched, [[0]] gives [0]; a bare number
    under ["prediction"] gives [None]. *)
Theorem scoring_bit_passed_through
  (table : list Rule) (rp : res Response) (t : Transaction)
  (status : Z) (items : list (string * value)) :
  error_status status = false ->
  let w := mk_World (Ok table)
             (Ok {| status_code := status; body := Some (Dict items) |}) rp (Ok tt) in
  (forall p rest,
      assoc "prediction" items = Some (List (p :: rest)) ->
      outcome (detect w t)
      = Ok {| rule_part := check_transaction_on (active table) t;
              is_fraud_predicted := p |}
      /\ (p = Int 1 -> In (report_call t (verdict table w.(scoring) t))
                          (calls (detect w t)))
      /\ (p = Int 0 -> positive (verdict table w.(scoring) t)
                       = is_fraud_rule (check_transaction_on (active table) t)))
  /\ (forall z,
        assoc "prediction" items = Some (Int z) ->
        outcome (detect w t)
        = Ok {| rule_part := check_transaction_on (active table) t;
                is_fraud_predicted := None_ |}).
Proof.
  intros Hst w.
  assert (Hout : outcome (detect w t) = Ok (verdict table (scoring w) t)).
  { unfold outcome, run, w. now rewrite detect_run. }
  assert (Hcalls : calls (detect w t)
                   = [SelectActiveRules; score_call t]
                     ++ (if positive (verdict table (scoring w) t)
                         then [report_call t (verdict table (scoring w) t)] else [])
                     ++ [insert_call t (verdict table (scoring w) t)]).
  { unfold calls, run, w. now rewrite detect_run. }
  split.
  - intros p rest Hp.
    assert (Hv : verdict table (scoring w) t
                 = {| rule_part := check_transaction_on (active table) t;
                      is_fraud_predicted := p |}).
    { unfold verdict, w, prediction_of; simpl. now rewrite Hst, Hp. }
    repeat split.
    + now rewrite Hout, Hv.
    + intros ->. rewrite Hcalls.
      replace (positive (verdict table (scoring w) t)) with true.
      * simpl. auto.
      * rewrite Hv. unfold positive; simpl. now rewrite orb_true_r.
    + intros ->. rewrite Hv. unfold positive; simpl. now rewrite orb_false_r.
  - intros z Hz. rewrite Hout. unfold verdict, w, prediction_of; simpl.
    now rewrite Hst, Hz.
Qed.

Lemma scoring_bit_passed_through_witness :
  outcome (detect (mk_World (Ok [threshold_row th5000])
                     (Ok (prediction_response (List [Int 1])))
                     (Raise ConnectionError) (Ok tt)) tx6000)
  = Ok {| rule_part := check_transaction_on (active [threshold_row th5000]) tx6000;
          is_fraud_predicted := Int 1 |}.
Proof.
  apply (proj1 (scoring_bit_passed_through [threshold_row th5000]
                  (Raise ConnectionError) tx6000 200
                  [("prediction", List [Int 1])] eq_refl) (Int 1) []).
  reflexivity.
Defined.

Lemma rejected_gives_none (sc : res Response) :
  scoring_rejected sc = true -> prediction_of sc = None_.
Proof.
  unfold scoring_rejected, prediction_of.
  destruct sc as [[status doc]|e]; simpl; [|reflexivity].
  destruct (error_status status); simpl; [reflexivity|].
  destruct doc as [[ |b|z|f|s|l|items]|]; try reflexivity.
  destruct (assoc "prediction" items) as [[ |b|z|f|s|l|items']|]; try reflexivity.
  - destruct s; [reflexivity|discriminate].
  - destruct l; [reflexivity|discriminate].
Qed.

(** The client does not answer [None] to every failed scoring call:
    [{"prediction": "no"}] is a malformed payload, yet the client returns
    ["n"]. *)
Lemma malformed_payload_not_none :
  ~ (forall w tx,
        scoring_failed w.(scoring) = true ->
        outcome (get_ml_prediction w tx) = Ok None_).
Proof.
  intros H.
  specialize (H (calm_world [] (prediction_response (Str "no")))
                (Transaction_dict tx1000) eq_refl).
  unfold outcome, run in H. rewrite get_ml_prediction_run in H. discriminate.
Qed.

(** X21. If the scoring call fails in a way the client notices
    (network error or timeout, 4xx or 5xx status, body that is not JSON or
    not an object, no ["prediction"], or a ["prediction"] that is neither a
    non-empty list nor a non-empty string), [get_ml_prediction] returns
    [None] and does not raise, and the verdict [detect] returns and writes
    has [is_fraud_predicted = None], which is not [False]. *)
Theorem rejected_scoring_gives_none
  (table : list Rule) (sc rp : res Response) (ins : res unit) (t : Transaction) :
  scoring_rejected sc = true ->
  let w := mk_World (Ok table) sc rp ins in
  (forall tx log,
      get_ml_prediction w tx log = (log ++ [HttpPost ML_SERVER_URL tx], Ok None_))
  /\ is_fraud_predicted (verdict table sc t) = None_
  /\ is_fraud_predicted (verdict table sc t) <> Bool false
  /\ outcome (detect w t)
     = match ins with
       | Ok _ => Ok {| rule_part := check_transaction_on (active table) t;
                       is_fraud_predicted := None_ |}
       | Raise e => Raise e
       end
  /\ In (InsertTransaction
           (insert_values t (is_fraud_rule (check_transaction_on (active table) t))
              None_))
        (calls (detect w t)).
Proof.
  intros Hrej w. apply rejected_gives_none in Hrej.
  assert (Hv : verdict table sc t
               = {| rule_part := check_transaction_on (active table) t;
                    is_fraud_predicted := None_ |})
    by (unfold verdict; now rewrite Hrej).
  split; [|split; [|split; [|split]]].
  - intros tx log. rewrite get_ml_prediction_run. simpl. now rewrite Hrej.
  - now rewrite Hv.
  - rewrite Hv. discriminate.
  - unfold outcome, run, w. rewrite detect_run. simpl snd.
    rewrite Hv. reflexivity.
  - unfold calls, run, w. rewrite detect_run. simpl fst. rewrite Hv.
    unfold insert_call; simpl. rewrite !in_app_iff. right. right. right. now left.
Qed.

Lemma rejected_scoring_gives_none_witness :
  outcome (detect (mk_World (Ok []) (Raise Timeout) (Raise ConnectionError) (Ok tt))
             tx1000)
  = Ok {| rule_part := check_transaction_on (active []) tx1000;
          is_fraud_predicted := None_ |}.
Proof.
  apply (rejected_scoring_gives_none [] (Raise Timeout) (Raise ConnectionError)
           (Ok tt) tx1000 eq_refl).
Defined.

(** C5. The scoring client misses one kind of malformed payload.  For the
    answer [{"prediction": "no"}] the subscript [[0]] of line 126, meant for
    a list, succeeds on the string: [get_ml_prediction] returns ["n"]
    instead of [None], the verdict's [is_fraud_predicted] is ["n"], which
    counts as true, and [detect] posts a report and writes ["n"] to the
    ledger. *)
Theorem string_prediction_taken_as_answer
  (table : list Rule) (rp : res Response) (ins : res unit) (t : Transaction) :
  let sc := Ok (prediction_response (Str "no")) in
  let w := mk_World (Ok table) sc rp ins in
  scoring_failed sc = true
  /\ get_ml_prediction w (Transaction_dict t) []
     = ([HttpPost ML_SERVER_URL (Transaction_dict t)], Ok (Str "n"))
  /\ is_fraud_predicted (verdict table sc t) = Str "n"
  /\ truthy (is_fraud_predicted (verdict table sc t)) = true
  /\ calls (detect w t)
     = [ SelectActiveRules; score_call t;
         report_call t (verdict table sc t);
         InsertTransaction
           (insert_values t
              (is_fraud_rule (check_transaction_on (active table) t)) (Str "n")) ]
  /\ outcome (detect w t)
     = match ins with
       | Ok _ => Ok {| rule_part := check_transaction_on (active table) t;
                       is_fraud_predicted := Str "n" |}
       | Raise e => Raise e
       end.
Proof.
  intros sc w.
  assert (Hv : verdict table sc t
               = {| rule_part := check_transaction_on (active table) t;
                    is_fraud_predicted := Str "n" |}) by reflexivity.
  assert (Hpos : positive (verdict table sc t) = true).
  { rewrite Hv. unfold positive; simpl. apply orb_true_r. }
  split; [reflexivity|]. split; [|split; [|split; [|split]]].
  - rewrite get_ml_prediction_run. reflexivity.
  - now rewrite Hv.
  - now rewrite Hv.
  - unfold calls, run, w. rewrite detect_run. simpl fst. rewrite Hpos, Hv.
    reflexivity.
  - unfold outcome, run, w. rewrite detect_run. simpl snd. now rewrite Hv.
Qed.

(** ** Report dispatch *)

Lemma filter_report_detect (t : Transaction) (r : DetectResult) (b : bool) :
  filter is_report
    ([SelectActiveRules; score_call t]
       ++ (if b then [report_call t r] else []) ++ [insert_call t r])
  = if b then [report_call t r] else [].
Proof. destruct b; reflexivity. Qed.


(** ** Order of the ledger write and the report *)

(** C4. For a transaction whose verdict is positive, [detect] posts the
    report before it writes the ledger row, the report is posted even when
    the write then fails, and the log does not satisfy
    persisted-before-reported; [batch_detect] on the same item writes first. *)
Theorem detect_reports_before_persisting
  (table : list Rule) (sc rp : res Response) (ins : res unit) (t : Transaction) :
  positive (verdict table sc t) = true ->
  let w := mk_World (Ok table) sc rp ins in
  let r := verdict table sc t in
  calls (detect w t)
  = [SelectActiveRules; score_call t; report_call t r; insert_call t r]
  /\ persisted_before_reported false (calls (detect w t)) = false
  /\ (store_insert w = Ok tt ->
      calls (batch_detect [(w, t)])
      = [SelectActiveRules; score_call t; insert_call t r; report_call t r]
      /\ persisted_before_reported false (calls (batch_detect [(w, t)])) = true).
Proof.
  intros Hpos w r.
  assert (Hcalls : calls (detect w t)
                   = [SelectActiveRules; score_call t; report_call t r;
                      insert_call t r]).
  { unfold calls, run, w. rewrite detect_run. fold r. simpl fst.
    unfold r. rewrite Hpos. reflexivity. }
  split; [assumption|]. split; [now rewrite Hcalls|].
  intros Hins. simpl in Hins. subst ins.
  assert (Hbatch : calls (batch_detect [(w, t)])
                   = [SelectActiveRules; score_call t; insert_call t r;
                      report_call t r]).
  { unfold calls, run, batch_detect, batch_loop, w.
    unfold bind at 1. rewrite batch_item_run. fold r. unfold r. rewrite Hpos.
    reflexivity. }
  split; [assumption|]. now rewrite Hbatch.
Qed.

Lemma detect_reports_before_persisting_witness :
  calls (detect (mk_World (Ok [threshold_row th5000])
                   (Ok (prediction_response (List [Int 0])))
                   (Raise ConnectionError) (Raise DatabaseError)) tx6000)
  = [ SelectActiveRules;
      HttpPost ML_SERVER_URL (Transaction_dict tx6000);
      HttpPost REPORT_API_URL
        (report_data "T1" "High transaction amount (> 5000.0)");
      InsertTransaction (insert_values tx6000 true (Int 0)) ].
Proof.
  apply (detect_reports_before_persisting [threshold_row th5000]
           (Ok (prediction_response (List [Int 0])))
           (Raise ConnectionError) (Raise DatabaseError) tx6000 eq_refl).
Defined.

(** ** The batch handler *)

Lemma store_ok_world (w : World) :
  store_ok w ->
  w = mk_World (Ok (table_of w)) w.(scoring) w.(reporting) (Ok tt).
Proof.
  intros [[table Ht] Hi]. unfold table_of.
  destruct w as [sr sc rp ins]; simpl in *. now subst.
Qed.

Lemma batch_loop_ok (items : list (World * Transaction)) :
  Forall (fun item => store_ok (fst item)) items ->
  forall results log,
    snd (batch_loop items results log) = Ok (results ++ map item_entry items).
Proof.
  induction 1 as [|[w t] items Hw Hitems IH]; intros results log; simpl.
  - now rewrite app_nil_r.
  - simpl in Hw. unfold bind.
    rewrite (store_ok_world w Hw) at 1. rewrite batch_item_run.
    rewrite IH, <- app_assoc. reflexivity.
Qed.

Lemma batch_loop_ok_inv (items : list (World * Transaction)) :
  forall results log out,
    snd (batch_loop items results log) = Ok out ->
    Forall (fun item => store_ok (fst item)) items.
Proof.
  induction items as [|[w t] items IH]; intros results log out H; [constructor|].
  simpl in H. unfold bind in H.
  destruct w as [[table|e] sc rp [[]|e']].
  - rewrite batch_item_run in H. constructor; [|now apply IH in H].
    split; [now exists table | reflexivity].
  - rewrite batch_item_run in H. discriminate.
  - rewrite batch_item_store_down in H. discriminate.
  - rewrite batch_item_store_down in H. discriminate.
Qed.

(** C2, as the specification states it, fails: when the rule table cannot be
    read for the first of two items, the request raises and the second item
    is never looked at. *)
Lemma batch_aborts_on_item_failure :
  ~ isolates_item_failures
  /\ run (batch_detect
            [ (store_down, tx1000);
              (calm_world [] (prediction_response (List [Int 0])), tx6000) ])
     = ([SelectActiveRules], Raise DatabaseError).
Proof.
  split; [|reflexivity].
  intros H.
  destruct (H [ (store_down, tx1000);
                (calm_world [] (prediction_response (List [Int 0])), tx6000) ])
    as (results & Hout & _).
  discriminate.
Qed.

(** C2, amended. [batch_detect] returns a result exactly when the rule
    fetch and the ledger write of every item succeed; the result then has
    one entry per submitted item, in submission order, each carrying its
    item's transaction id and verdict. *)
Theorem batch_returns_entries_in_order (items : list (World * Transaction)) :
  (Forall (fun item => store_ok (fst item)) items ->
   outcome (batch_detect items) = Ok (map item_entry items)
   /\ List.length (map item_entry items) = List.length items
   /\ map be_transaction_id (map item_entry items)
      = map (fun item => transaction_id (snd item)) items)
  /\ (forall results,
        outcome (batch_detect items) = Ok results ->
        Forall (fun item => store_ok (fst item)) items).
Proof.
  split.
  - intros Hok. split; [|split].
    + unfold outcome, run, batch_detect. now rewrite batch_loop_ok.
    + apply length_map.
    + rewrite map_map. reflexivity.
  - intros results H. unfold outcome, run, batch_detect in H.
    now apply batch_loop_ok_inv in H.
Qed.

Lemma batch_returns_entries_in_order_witness :
  outcome (batch_detect
             [ (calm_world [threshold_row th5000]
                  (prediction_response (List [Int 0])), tx6000);
               (calm_world [threshold_row th5000]
                  (prediction_response (List [Int 0])), tx1000) ])
  = Ok [ {| be_transaction_id := "T1"; be_is_fraud_rule := true;
            be_is_fraud_predicted := Int 0;
            be_fraud_reasons := "High transaction amount (> 5000.0)" |};
         {| be_transaction_id := "T2"; be_is_fraud_rule := false;
            be_is_fraud_predicted := Int 0;
            be_fraud_reasons := "" |} ].
Proof.
  apply (proj1 (batch_returns_entries_in_order
                  [ (calm_world [threshold_row th5000]
                       (prediction_response (List [Int 0])), tx6000);
                    (calm_world [threshold_row th5000]
                       (prediction_response (List [Int 0])), tx1000) ])).
  repeat constructor; exists [threshold_row th5000]; reflexivity.
Defined.

(** ** Further properties of rule evaluation *)

Lemma triggers_iff_some_reason (t : Transaction) (rules : list Rule) :
  existsb (rule_triggers t) rules
  = negb (is_nil (flat_map (rule_reasons t) rules)).
Proof.
  induction rules as [|r rules IH]; [reflexivity|]. simpl.
  rewrite IH, rule_triggers_parts, rule_reasons_parts.
  destruct (parts t r); reflexivity.
Qed.

(** X1. In the dictionary [check_transaction] returns the flag and the list
    of reasons always agree: [is_fraud_rule] is true exactly when
    [fraud_reasons] is not empty. *)
Theorem flag_set_iff_some_reason (rules : list Rule) (t : Transaction) :
  is_fraud_rule (check_transaction_on rules t) = true
  <-> fraud_reasons (check_transaction_on rules t) <> [].
Proof.
  rewrite check_transaction_on_spec; simpl. rewrite triggers_iff_some_reason.
  destruct (flat_map (rule_reasons t) rules); simpl; split;
    congruence.
Qed.

Lemma parts_length (t : Transaction) (r : Rule) :
  (List.length (parts t r) <= 5)%nat.
Proof.
  unfold parts, threshold_part, blocked_part.
  rewrite !length_app.
  destruct (threshold r) as [th|];
    repeat match goal with
      | |- context [if ?c then _ else _] => destruct c
      end; simpl; lia.
Qed.

(** X2. A rule appends at most five reasons (one per check), so the list
    [check_transaction] returns has at most five entries per rule
    evaluated. *)
Theorem reasons_at_most_five_per_rule (rules : list Rule) (t : Transaction) :
  (List.length (fraud_reasons (check_transaction_on rules t))
   <= 5 * List.length rules)%nat.
Proof.
  rewrite check_transaction_on_spec; simpl.
  induction rules as [|r rules IH]; simpl; [lia|].
  rewrite length_app, rule_reasons_parts.
  pose proof (parts_length t r). lia.
Qed.

Lemma existsb_permutation {A} (f : A -> bool) (l l' : list A) :
  Permutation l l' -> existsb f l = existsb f l'.
Proof.
  induction 1 as [ |x l l' _ IH|x y l|l l' l'' _ IH1 _ IH2]; simpl.
  - reflexivity.
  - now rewrite IH.
  - destruct (f x), (f y); reflexivity.
  - now rewrite IH1.
Qed.

Lemma flat_map_permutation {A B} (f : A -> list B) (l l' : list A) :
  Permutation l l' -> Permutation (flat_map f l) (flat_map f l').
Proof.
  induction 1 as [ |x l l' _ IH|x y l|l l' l'' _ IH1 _ IH2]; simpl.
  - constructor.
  - now apply Permutation_app_head.
  - rewrite !app_assoc. apply Permutation_app_tail, Permutation_app_comm.
  - now transitivity (flat_map f l').
Qed.

(** X3. The order of the rule rows does not change the verdict: evaluating
    a reordered rule set gives the same [is_fraud_rule] and the same
    reasons up to order. *)
Theorem rule_order_changes_only_reason_order
  (rules rules' : list Rule) (t : Transaction) :
  Permutation rules rules' ->
  is_fraud_rule (check_transaction_on rules t)
  = is_fraud_rule (check_transaction_on rules' t)
  /\ Permutation (fraud_reasons (check_transaction_on rules t))
                 (fraud_reasons (check_transaction_on rules' t)).
Proof.
  intros Hperm. rewrite !check_transaction_on_spec; simpl. split.
  - now apply existsb_permutation.
  - now apply flat_map_permutation.
Qed.

Lemma rule_order_changes_only_reason_order_witness :
  is_fraud_rule
    (check_transaction_on [threshold_row th1000; blocked_row BlockedIP (Some "1.2.3.4")]
       tx6000)
  = is_fraud_rule
      (check_transaction_on [blocked_row BlockedIP (Some "1.2.3.4"); threshold_row th1000]
         tx6000)
  /\ Permutation
       (fraud_reasons
          (check_transaction_on
             [threshold_row th1000; blocked_row BlockedIP (Some "1.2.3.4")] tx6000))
       (fraud_reasons
          (check_transaction_on
             [blocked_row BlockedIP (Some "1.2.3.4"); threshold_row th1000] tx6000)).
Proof.
  apply (rule_order_changes_only_reason_order
           [threshold_row th1000; blocked_row BlockedIP (Some "1.2.3.4")]
           [blocked_row BlockedIP (Some "1.2.3.4"); threshold_row th1000] tx6000).
  apply perm_swap.
Defined.

(** ** Further properties of the handlers *)

(** X4. When the rule table cannot be read, [detect] and an iteration of
    [batch_detect] raise the store's error after the SELECT alone: the
    scoring server is not called, no report is posted and no row is
    written, so an unreachable rule store never counts as "no rule
    matched". *)
Theorem rule_store_failure_stops_pipeline
  (e : exn) (sc rp : res Response) (ins : res unit) (t : Transaction) :
  let w := mk_World (Raise e) sc rp ins in
  run (detect w t) = ([SelectActiveRules], Raise e)
  /\ run (batch_item w t) = ([SelectActiveRules], Raise e)
  /\ forall rest, run (batch_detect ((w, t) :: rest)) = ([SelectActiveRules], Raise e).
Proof.
  intros w. unfold run, w. split; [|split].
  - now rewrite detect_store_down.
  - now rewrite batch_item_store_down.
  - intros rest. unfold batch_detect; simpl. unfold bind.
    now rewrite batch_item_store_down.
Qed.

(** X5. [get_ml_prediction] never raises and posts to the scoring server
    exactly once, whatever the server does; the value it returns is other
    than [None] only if the call came back with a status outside 4xx and
    5xx and a JSON object whose ["prediction"] is a non-empty list or
    string. *)
Theorem scoring_client_never_raises (w : World) (tx : value) (log : list call) :
  exists v,
    get_ml_prediction w tx log = (log ++ [HttpPost ML_SERVER_URL tx], Ok v)
    /\ (v <> None_ ->
        exists status items p,
          w.(scoring) = Ok {| status_code := status; body := Some (Dict items) |}
          /\ error_status status = false
          /\ assoc "prediction" items = Some p
          /\ getitem0 p = Ok v).
Proof.
  exists (prediction_of (scoring w)). split; [apply get_ml_prediction_run|].
  unfold prediction_of.
  destruct (scoring w) as [[status doc]|e]; simpl; [|congruence].
  destruct (error_status status) eqn:Hst; [congruence|].
  destruct doc as [[ |b|z|f|s|l|items]|]; try congruence.
  destruct (assoc "prediction" items) as [p|] eqn:Hp; [|congruence].
  intros Hv. exists status, items, p. repeat split; try assumption.
  destruct p as [ |b|z|f|s|l|items']; try congruence.
  - unfold getitem0. destruct (characters s); [congruence|reflexivity].
  - destruct l; [congruence|reflexivity].
Qed.

Lemma batch_loop_run (items : list (World * Transaction)) :
  Forall (fun item => store_ok (fst item)) items ->
  forall results log,
    batch_loop items results log
    = (log ++ flat_map item_calls items, Ok (results ++ map item_entry items)).
Proof.
  induction 1 as [|[w t] items Hw Hitems IH]; intros results log; simpl.
  - now rewrite !app_nil_r.
  - simpl in Hw. unfold bind.
    rewrite (store_ok_world w Hw) at 1. rewrite batch_item_run.
    rewrite IH. unfold item_calls at 2, item_entry at 2; simpl.
    rewrite <- !app_assoc. reflexivity.
Qed.

Lemma count_item_calls (f : call -> bool) (k : nat)
  (items : list (World * Transaction)) :
  (forall item, List.length (filter f (item_calls item)) = k) ->
  List.length (filter f (flat_map item_calls items)) = (k * List.length items)%nat.
Proof.
  intros Hk. induction items as [|item items IH]; [simpl; lia|].
  cbn [flat_map]. rewrite filter_app, length_app, Hk, IH.
  cbn [List.length]. lia.
Qed.

(** X6. When the store answers for every item, [batch_detect] makes the
    calls of its items one item after the other, and for [n] items it reads
    the rule table [n] times, calls the scoring server [n] times and writes
    [n] rows: the rules are fetched again for each transaction. *)
Theorem batch_calls_item_by_item (items : list (World * Transaction)) :
  Forall (fun item => store_ok (fst item)) items ->
  calls (batch_detect items) = flat_map item_calls items
  /\ List.length (filter is_select (calls (batch_detect items))) = List.length items
  /\ List.length (filter is_score (calls (batch_detect items))) = List.length items
  /\ List.length (filter is_insert (calls (batch_detect items))) = List.length items.
Proof.
  intros Hok.
  assert (Hcalls : calls (batch_detect items) = flat_map item_calls items).
  { unfold calls, run, batch_detect. now rewrite batch_loop_run. }
  rewrite Hcalls. split; [reflexivity|].
  split; [|split];
    (rewrite (count_item_calls _ 1); [lia|]; intros [w t]; unfold item_calls; simpl;
     destruct (positive _); reflexivity).
Qed.

Lemma batch_calls_item_by_item_witness :
  calls (batch_detect
           [ (calm_world [threshold_row th5000]
                (prediction_response (List [Int 0])), tx6000);
             (calm_world [] (prediction_response (List [Int 0])), tx1000) ])
  = flat_map item_calls
      [ (calm_world [threshold_row th5000]
           (prediction_response (List [Int 0])), tx6000);
        (calm_world [] (prediction_response (List [Int 0])), tx1000) ].
Proof.
  apply (batch_calls_item_by_item
           [ (calm_world [threshold_row th5000]
                (prediction_response (List [Int 0])), tx6000);
             (calm_world [] (prediction_response (List [Int 0])), tx1000) ]).
  repeat constructor; eexists; reflexivity.
Defined.

Lemma batch_loop_app (items1 items2 : list (World * Transaction)) :
  Forall (fun item => store_ok (fst item)) items1 ->
  forall results log,
    batch_loop (items1 ++ items2) results log
    = batch_loop items2 (results ++ map item_entry items1)
        (log ++ flat_map item_calls items1).
Proof.
  induction 1 as [|[w t] items Hw Hitems IH]; intros results log; simpl.
  - now rewrite !app_nil_r.
  - simpl in Hw. unfold bind.
    rewrite (store_ok_world w Hw) at 1. rewrite batch_item_run.
    rewrite IH. unfold item_calls at 2, item_entry at 2; simpl.
    rewrite <- !app_assoc. reflexivity.
Qed.

(** X7. [batch_detect] is not atomic.  If the items before some item are
    processed and that item's rule fetch raises, the request raises and
    returns no entry, yet the rows of the earlier items have been written
    and their reports posted; if instead that item's INSERT raises, its
    scoring call and INSERT have been attempted as well and its report is
    not posted. *)
Theorem batch_failure_keeps_earlier_writes
  (before rest : list (World * Transaction))
  (e : exn) (table : list Rule) (sc rp : res Response) (ins : res unit)
  (t : Transaction) :
  Forall (fun item => store_ok (fst item)) before ->
  run (batch_detect (before ++ (mk_World (Raise e) sc rp ins, t) :: rest))
  = (flat_map item_calls before ++ [SelectActiveRules], Raise e)
  /\ run (batch_detect (before ++ (mk_World (Ok table) sc rp (Raise e), t) :: rest))
     = (flat_map item_calls before
          ++ [SelectActiveRules; score_call t; insert_call t (verdict table sc t)],
        Raise e)
  /\ (forall item, In item before ->
        In (insert_call (snd item)
              (verdict (table_of (fst item)) (fst item).(scoring) (snd item)))
           (flat_map item_calls before)).
Proof.
  intros Hok. unfold run, batch_detect. split; [|split].
  - rewrite batch_loop_app by assumption. simpl. unfold bind.
    now rewrite batch_item_store_down.
  - rewrite batch_loop_app by assumption. simpl. unfold bind.
    now rewrite batch_item_run.
  - intros item Hin. apply in_flat_map. exists item. split; [assumption|].
    unfold item_calls. simpl. auto.
Qed.

Lemma batch_failure_keeps_earlier_writes_witness :
  run (batch_detect
         [ (calm_world [threshold_row th5000]
              (prediction_response (List [Int 0])), tx6000);
           (store_down, tx1000) ])
  = ([ SelectActiveRules; score_call tx6000;
       InsertTransaction (insert_values tx6000 true (Int 0));
       HttpPost REPORT_API_URL
         (report_data "T1" "High transaction amount (> 5000.0)");
       SelectActiveRules ],
     Raise DatabaseError).
Proof.
  apply (proj1 (batch_failure_keeps_earlier_writes
                  [ (calm_world [threshold_row th5000]
                       (prediction_response (List [Int 0])), tx6000) ]
                  [] DatabaseError []
                  (Ok (prediction_response (List [Int 0])))
                  (Ok {| status_code := 200; body := Some (Dict []) |})
                  (Raise DatabaseError) tx1000
                  ltac:(repeat constructor; eexists; reflexivity))).
Defined.

(** X8. For one transaction and the same answers of the collaborators,
    [detect] and [batch_detect] reach the same verdict: the single entry of
    the batch carries the id, the two flags and the comma-joined reasons of
    the dictionary [detect] returns, and the two handlers make the same
    calls, in a different order. *)
Theorem single_and_batch_agree
  (table : list Rule) (sc rp : res Response) (t : Transaction) :
  let w := mk_World (Ok table) sc rp (Ok tt) in
  exists r,
    outcome (detect w t) = Ok r
    /\ outcome (batch_detect [(w, t)])
       = Ok [ {| be_transaction_id := rr_transaction_id r.(rule_part);
                 be_is_fraud_rule := is_fraud_rule r.(rule_part);
                 be_is_fraud_predicted := r.(is_fraud_predicted);
                 be_fraud_reasons := join ", " (fraud_reasons r.(rule_part)) |} ]
    /\ Permutation (calls (detect w t)) (calls (batch_detect [(w, t)])).
Proof.
  intros w. exists (verdict table sc t).
  assert (Hbatch : run (batch_detect [(w, t)])
                   = ([SelectActiveRules; score_call t;
                       insert_call t (verdict table sc t)]
                        ++ (if positive (verdict table sc t)
                            then [report_call t (verdict table sc t)] else []),
                      Ok [entry_of table sc t])).
  { unfold run, batch_detect, w; simpl batch_loop. unfold bind.
    now rewrite batch_item_run. }
  unfold outcome, calls. rewrite Hbatch. unfold run, w. rewrite detect_run.
  split; [reflexivity|]. split; [reflexivity|]. simpl fst.
  destruct (positive (verdict table sc t)); simpl.
  - do 2 apply perm_skip. apply perm_swap.
  - apply Permutation_refl.
Qed.

(** X9. With a readable rule table [detect] issues exactly one INSERT,
    whatever the verdict; the row has no column for the payer's IP address
    (its last value is [None]) and none for the card brand, and the card
    brand changes neither the rule verdict nor the row written. *)
Theorem ledger_row_written_once
  (table : list Rule) (sc rp : res Response) (ins : res unit) (t : Transaction) :
  let w := mk_World (Ok table) sc rp ins in
  filter is_insert (calls (detect w t)) = [insert_call t (verdict table sc t)]
  /\ (forall brand,
        check_transaction_on (active table) (with_card_brand t brand)
        = check_transaction_on (active table) t
        /\ filter is_insert (calls (detect w (with_card_brand t brand)))
           = filter is_insert (calls (detect w t)))
  /\ (forall ip b p,
        insert_values (with_payer_ip t ip) b p = insert_values t b p
        /\ nth 12 (insert_values t b p) (Bool true) = None_
        /\ List.length (insert_values t b p) = 13%nat).
Proof.
  intros w.
  assert (Hins : forall t',
             filter is_insert (calls (detect w t'))
             = [insert_call t' (verdict table sc t')]).
  { intros t'. unfold calls, run, w. rewrite detect_run. simpl fst.
    destruct (positive (verdict table sc t')); reflexivity. }
  split; [apply Hins|]. split.
  - intros brand. split; [reflexivity|]. rewrite !Hins. reflexivity.
  - intros ip b p. repeat split.
Qed.

Lemma no_flag_no_reasons (rules : list Rule) (t : Transaction) :
  is_fraud_rule (check_transaction_on rules t) = false ->
  fraud_reasons (check_transaction_on rules t) = [].
Proof.
  rewrite check_transaction_on_spec; simpl. rewrite triggers_iff_some_reason.
  destruct (flat_map (rule_reasons t) rules); [reflexivity|discriminate].
Qed.

(** X10. A report sent on the anomaly signal alone has empty details: when
    no rule matched and the prediction counts as true, [detect] posts the
    report with [fraud_details] the empty string. *)
Theorem anomaly_only_report_has_no_details
  (table : list Rule) (sc rp : res Response) (t : Transaction) (r : DetectResult) :
  outcome (detect (mk_World (Ok table) sc rp (Ok tt)) t) = Ok r ->
  is_fraud_rule r.(rule_part) = false ->
  truthy r.(is_fraud_predicted) = true ->
  filter is_report (calls (detect (mk_World (Ok table) sc rp (Ok tt)) t))
  = [HttpPost REPORT_API_URL (report_data t.(transaction_id) "")].
Proof.
  intros Hr Hrule Hpred.
  assert (Hrep : filter is_report
                   (calls (detect (mk_World (Ok table) sc rp (Ok tt)) t))
                 = if positive (verdict table sc t)
                   then [report_call t (verdict table sc t)] else []).
  { unfold calls, run. rewrite detect_run. simpl fst. apply filter_report_detect. }
  unfold outcome, run in Hr. rewrite detect_run in Hr. injection Hr as <-.
  rewrite Hrep. unfold positive. rewrite Hrule, Hpred. simpl.
  unfold report_call.
  change (rule_part (verdict table sc t))
    with (check_transaction_on (active table) t) in *.
  now rewrite (no_flag_no_reasons _ _ Hrule).
Qed.

Lemma anomaly_only_report_has_no_details_witness :
  filter is_report
    (calls (detect (mk_World (Ok []) (Ok (prediction_response (List [Int 1])))
                      (Raise ConnectionError) (Ok tt)) tx1000))
  = [HttpPost REPORT_API_URL (report_data "T2" "")].
Proof.
  apply (anomaly_only_report_has_no_details [] (Ok (prediction_response (List [Int 1])))
           (Raise ConnectionError) tx1000
           {| rule_part := check_transaction_on [] tx1000;
              is_fraud_predicted := Int 1 |});
    reflexivity.
Defined.

(** ** The scoring server's answer *)

(** X11. The inversion of the model's bit is made by the scoring server:
    [ml_predict] answers [is_fraud = 1] exactly when the model's bit is
    false, echoes the transaction id of the backend's request, and uses
    the empty string when the request carries no id. *)
Theorem ml_predict_inverts_model_bit (prediction : bool) :
  (forall t,
      ml_predict (Transaction_dict t) prediction
      = Ok (Dict [ ("transaction_id", Str t.(transaction_id));
                   ("is_fraud", Int (if prediction then 0 else 1)) ]))
  /\ (forall items,
        assoc "transaction_id" items = None ->
        ml_predict (Dict items) prediction
        = Ok (Dict [ ("transaction_id", Str "");
                     ("is_fraud", Int (if prediction then 0 else 1)) ])).
Proof.
  split.
  - intros t. now destruct prediction.
  - intros items Hno. unfold ml_predict, get. rewrite Hno.
    now destruct prediction.
Qed.

(** ** The report server *)

(** X12. [report_fraud] acknowledges exactly when nothing raised; an
    acknowledged report has been appended as one row with
    [is_fraud_reported] true; the table is never otherwise changed; a
    report is answered with failure code 1 and yet stored when closing the
    connection raises after the commit; and the same report sent twice is
    stored twice. *)
Theorem report_acknowledged_iff_nothing_raised
  (db : db_result) (table : list ReportRow) (report : FraudReport) :
  let row := mk_ReportRow report.(report_transaction_id)
               report.(reporting_entity_id) report.(fraud_details) true in
  let after := fst (report_fraud db table report) in
  let answer := snd (report_fraud db table report) in
  (getitem answer "reporting_acknowledged" = Ok (Bool true) <-> db = DbOk)
  /\ (getitem answer "failure_code" = Ok (Int 0) <-> db = DbOk)
  /\ (db = DbOk -> after = table ++ [row])
  /\ (db <> DbOk ->
      getitem answer "reporting_acknowledged" = Ok (Bool false)
      /\ getitem answer "failure_code" = Ok (Int 1))
  /\ (after = table \/ after = table ++ [row])
  /\ (forall e, fst (report_fraud (DbFailsAfterCommit e) table report)
                = table ++ [row])
  /\ getitem answer "transaction_id" = Ok (Str report.(report_transaction_id))
  /\ fst (report_fraud DbOk (fst (report_fraud DbOk table report)) report)
     = table ++ [row; row].
Proof.
  intros row after answer. unfold after, answer, row.
  destruct db as [ |e|e]; simpl; repeat split;
    try discriminate; try reflexivity; try congruence; auto.
  all: try (intros _; discriminate).
  all: now rewrite <- app_assoc.
Qed.

Lemma detect_report_calls (table : list Rule) (sc rp : res Response)
  (ins : res unit) (t : Transaction) :
  filter is_report (calls (detect (mk_World (Ok table) sc rp ins) t))
  = if positive (verdict table sc t)
    then [report_call t (verdict table sc t)] else [].
Proof.
  unfold calls, run. rewrite detect_run. simpl fst. apply filter_report_detect.
Qed.

(** X13. Every report [detect] posts is a valid [FraudReport], and when
    the report server's database works the row it stores carries the
    transaction's id, the entity "system" and the comma-joined reasons of
    the verdict. *)
Theorem backend_report_is_stored
  (table : list Rule) (sc rp : res Response) (ins : res unit) (t : Transaction)
  (reports : list ReportRow) :
  positive (verdict table sc t) = true ->
  exists payload,
    filter is_report (calls (detect (mk_World (Ok table) sc rp ins) t))
    = [HttpPost REPORT_API_URL payload]
    /\ (forall db,
          report_endpoint db reports payload
          = Valid (report_fraud db reports
                     (mk_FraudReport t.(transaction_id) "system"
                        (join ", " (fraud_reasons
                                      (check_transaction_on (active table) t))))))
    /\ report_endpoint DbOk reports payload
       = Valid (reports
                  ++ [mk_ReportRow t.(transaction_id) "system"
                        (join ", " (fraud_reasons
                                      (check_transaction_on (active table) t)))
                        true],
                Dict [ ("transaction_id", Str t.(transaction_id));
                       ("reporting_acknowledged", Bool true);
                       ("failure_code", Int 0) ]).
Proof.
  intros Hpos.
  exists (report_data t.(transaction_id)
            (join ", " (fraud_reasons (check_transaction_on (active table) t)))).
  rewrite detect_report_calls, Hpos. repeat split.
Qed.

Lemma backend_report_is_stored_witness :
  exists payload,
    filter is_report
      (calls (detect (mk_World (Ok [threshold_row th5000])
                        (Raise Timeout) (Raise ConnectionError) (Ok tt)) tx6000))
    = [HttpPost REPORT_API_URL payload]
    /\ report_endpoint DbOk [] payload
       = Valid ([mk_ReportRow "T1" "system" "High transaction amount (> 5000.0)" true],
                Dict [ ("transaction_id", Str "T1");
                       ("reporting_acknowledged", Bool true);
                       ("failure_code", Int 0) ]).
Proof.
  destruct (backend_report_is_stored [threshold_row th5000] (Raise Timeout)
              (Raise ConnectionError) (Ok tt) tx6000 [] eq_refl)
    as (payload & Hcalls & _ & Hstored).
  exists payload. split; assumption.
Defined.

(** ** The payment form *)

(** X14. The form posts the payer's address under ["payer_device"], a key
    [Transaction] does not declare: the request is valid, the transaction
    the handlers receive has no [payer_ip], the other inputs arrive as
    typed, and no rule set ever yields a "Blocked IP" reason for a
    transaction sent from the form. *)
Theorem form_never_sends_payer_ip (f : PaymentForm) :
  exists t,
    Transaction_validate (transaction_data f) = Valid t
    /\ t.(payer_ip) = None
    /\ t.(transaction_id) = f.(form_transaction_id)
    /\ t.(transaction_amount) = f.(form_transaction_amount)
    /\ t.(payer_email) = Some f.(form_payer_email)
    /\ t.(payer_browser) = Some f.(form_payer_browser)
    /\ t.(payment_gateway_bank) = Some f.(form_payment_gateway_bank)
    /\ (forall rules s,
          ~ In ("Blocked IP: " ++ s)%string
               (fraud_reasons (check_transaction_on rules t)))
    /\ (forall blocked, rule_triggers t (blocked_row BlockedIP blocked) = false).
Proof.
  exists (mk_Transaction f.(form_transaction_id) f.(form_transaction_date)
            f.(form_transaction_amount) (Some f.(form_transaction_channel))
            (Some f.(form_transaction_payment_mode))
            (Some f.(form_payment_gateway_bank)) (Some f.(form_payer_email))
            (Some f.(form_payer_mobile)) (Some f.(form_payer_card_brand)) None
            (Some f.(form_payer_browser)) (Some f.(form_payee_id))).
  do 7 (split; [reflexivity|]). split.
  - intros rules s Hin. rewrite check_transaction_on_spec in Hin.
    cbn [fraud_reasons] in Hin.
    apply in_flat_map in Hin as (r & _ & Hin).
    apply (in_reasons_blocked BlockedIP) in Hin as (_ & _ & Hfield).
    discriminate.
  - intros blocked. rewrite rule_triggers_parts, blocked_row_parts.
    rewrite blocked_part_silent; [reflexivity|].
    intros s (_ & _ & Hfield). discriminate.
Qed.

Lemma all_str_map (l : list string) : all_str (map Str l) = Some l.
Proof. induction l as [|s l IH]; simpl; [reflexivity|now rewrite IH]. Qed.

Lemma payment_check_verdict (j : bool) (r : DetectResult)
  (f : PaymentForm) (shown : list message) :
  payment_check j
    (Ok {| status_code := 200; body := Some (DetectResult_json r) |}) f shown
  = (shown ++ verdict_messages r, Ok tt).
Proof.
  unfold payment_check, ui_try, ui_bind, ui_lift, show, ui_ret, verdict_messages,
    positive. simpl.
  destruct (is_fraud_rule (rule_part r)); simpl.
  - rewrite all_str_map. simpl.
    destruct (truthy (is_fraud_predicted r)); simpl;
      rewrite <- !app_assoc; reflexivity.
  - destruct (truthy (is_fraud_predicted r)); simpl;
      rewrite <- !app_assoc; reflexivity.
Qed.

Lemma warning_iff_positive (r : DetectResult) :
  In (Shown StWarning "Fraud Reported") (verdict_messages r) <-> positive r = true.
Proof.
  unfold verdict_messages. rewrite in_app_iff. split.
  - intros [H|H].
    + cbn [In] in H. destruct H as [H|[H|[]]];
        match type of H with
        | (if ?c then _ else _) = _ => destruct c; discriminate H
        end.
    + destruct (positive r); [reflexivity|destruct H].
  - intros ->. right. now left.
Qed.

(** X15. Given the dictionary [detect] returned, the page shows the rule
    message, the AI message and then "Fraud Reported" exactly when the
    verdict is positive; the verdict does not depend on the report server,
    so "Fraud Reported" is shown also when the report could not be
    delivered. *)
Theorem fraud_reported_shown_iff_positive
  (j : bool) (table : list Rule) (sc rp : res Response) (t : Transaction)
  (f : PaymentForm) :
  exists r,
    (forall rp', outcome (detect (mk_World (Ok table) sc rp' (Ok tt)) t) = Ok r)
    /\ payment_check j
         (Ok {| status_code := 200; body := Some (DetectResult_json r) |}) f []
       = (verdict_messages r, Ok tt)
    /\ (In (Shown StWarning "Fraud Reported") (verdict_messages r)
        <-> positive r = true).
Proof.
  exists (verdict table sc t). split; [|split].
  - intros rp'. unfold outcome, run. now rewrite detect_run.
  - now rewrite payment_check_verdict.
  - apply warning_iff_positive.
Qed.

Lemma payment_check_simulation (j : bool) (answer : res Response) (f : PaymentForm) :
  (exists e, answer = Raise e /\ (e = ConnectionError \/ e = Timeout))
  \/ (exists response, answer = Ok response /\ response.(status_code) <> 200) ->
  forall shown, payment_check j answer f shown = simulation f shown.
Proof.
  intros [(e & -> & He)|(response & -> & Hst)] shown.
  - unfold payment_check, ui_try, ui_bind, ui_lift.
    destruct He as [-> | ->]; simpl; unfold simulation, ui_bind, show;
      destruct (float_gt (form_transaction_amount f) (float_of_Z 5000));
      reflexivity.
  - apply Z.eqb_neq in Hst.
    unfold payment_check, ui_try, ui_bind, ui_lift. rewrite Hst.
    unfold simulation, ui_bind, show.
    destruct (float_gt (form_transaction_amount f) (float_of_Z 5000)); reflexivity.
Qed.

(** X16. When the request to [/detect] fails to connect or times out, or
    the answer's status is not 200 (a validation error, or the backend
    raised), the page shows the simulation notice followed by a verdict
    computed from the amount alone: fraud exactly when the amount is
    strictly greater than 5000, whatever the rules in the store. *)
Theorem unusable_api_shows_simulation
  (j : bool) (answer : res Response) (f : PaymentForm) :
  (exists e, answer = Raise e /\ (e = ConnectionError \/ e = Timeout))
  \/ (exists response, answer = Ok response /\ response.(status_code) <> 200) ->
  payment_check j answer f []
  = ([ Shown StWarning "⚠️ API connection error: Using simulation mode";
       if float_gt f.(form_transaction_amount) (float_of_Z 5000)
       then Shown StError "🚨 Fraud Detected! (Simulation)
Reasons: Amount exceeds threshold"
       else Shown StSuccess "✅ Transaction is NOT Fraudulent! (Simulation)" ],
     Ok tt)
  /\ (f.(form_transaction_amount) = float_of_Z 5000 ->
      In (Shown StSuccess "✅ Transaction is NOT Fraudulent! (Simulation)")
         (fst (payment_check j answer f []))).
Proof.
  intros H. rewrite (payment_check_simulation j answer f H).
  unfold simulation, ui_bind, show.
  destruct (float_gt (form_transaction_amount f) (float_of_Z 5000)) eqn:E.
  - split; [reflexivity|]. intros Heq.
    rewrite Heq, float_gt_irrefl in E. discriminate E.
  - split; [reflexivity|]. intros _. right. now left.
Qed.

Lemma unusable_api_shows_simulation_witness :
  payment_check true (Ok {| status_code := 500; body := None |}) sample_form []
  = ([ Shown StWarning "⚠️ API connection error: Using simulation mode";
       if float_gt sample_form.(form_transaction_amount) (float_of_Z 5000)
       then Shown StError "🚨 Fraud Detected! (Simulation)
Reasons: Amount exceeds threshold"
       else Shown StSuccess "✅ Transaction is NOT Fraudulent! (Simulation)" ],
     Ok tt).
Proof.
  assert (H : (exists e, Ok {| status_code := 500; body := None |} = Raise e
                         /\ (e = ConnectionError \/ e = Timeout))
              \/ (exists response,
                    Ok {| status_code := 500; body := None |} = Ok response
                    /\ response.(status_code) <> 200)).
  { right. exists {| status_code := 500; body := None |}.
    split; [reflexivity|]. simpl. lia. }
  exact (proj1 (unusable_api_shows_simulation true
                  (Ok {| status_code := 500; body := None |}) sample_form H)).
Defined.

(** X17. Against this repository's scoring server the page never shows
    "Fraud Detected via AI": whatever the model's bit, the verdict [detect]
    returns has [is_fraud_predicted = None], and for it the page shows the
    "NOT Fraudulent via AI" message. *)
Theorem form_never_shows_ai_fraud
  (j : bool) (table : list Rule) (rp : res Response) (t : Transaction)
  (f : PaymentForm) (status : Z) (api_data : value) (prediction : bool)
  (doc : value) :
  ml_predict api_data prediction = Ok doc ->
  exists r shown,
    outcome (detect (mk_World (Ok table)
                       (Ok {| status_code := status; body := Some doc |})
                       rp (Ok tt)) t) = Ok r
    /\ payment_check j
         (Ok {| status_code := 200; body := Some (DetectResult_json r) |}) f []
       = (shown, Ok tt)
    /\ In (Shown StSuccess "✅ Transaction is NOT Fraudulent via AI!") shown
    /\ ~ In (Shown StError "🚨 Fraud Detected via AI!") shown.
Proof.
  intros Hdoc. apply assoc_ml_predict in Hdoc as [tid ->].
  set (sc := Ok {| status_code := status;
                   body := Some (Dict [("transaction_id", tid);
                                       ("is_fraud",
                                        Int (if prediction then 0 else 1))]) |}).
  assert (Hp : is_fraud_predicted (verdict table sc t) = None_).
  { unfold verdict, sc, prediction_of; simpl. now destruct (error_status status). }
  exists (verdict table sc t), (verdict_messages (verdict table sc t)).
  split; [unfold outcome, run; now rewrite detect_run|].
  split; [now rewrite payment_check_verdict|].
  unfold verdict_messages, positive. rewrite Hp. cbn [truthy].
  split.
  - apply in_app_iff. left. right. now left.
  - rewrite in_app_iff. intros [H|H].
    + cbn [In] in H. destruct H as [H|[H|[]]]; [|discriminate H].
      destruct (is_fraud_rule (rule_part (verdict table sc t)));
        [|discriminate H].
      injection H as H. cbn [append] in H. discriminate H.
    + rewrite orb_false_r in H.
      destruct (is_fraud_rule (rule_part (verdict table sc t)));
        [|destruct H].
      destruct H as [H|[]]. discriminate H.
Qed.

Lemma form_never_shows_ai_fraud_witness :
  exists r shown,
    outcome (detect (mk_World (Ok [])
                       (Ok {| status_code := 200;
                              body := Some (Dict [("transaction_id", Str "T1");
                                                  ("is_fraud", Int 1)]) |})
                       (Raise ConnectionError) (Ok tt)) tx6000) = Ok r
    /\ payment_check true
         (Ok {| status_code := 200; body := Some (DetectResult_json r) |})
         sample_form []
       = (shown, Ok tt)
    /\ In (Shown StSuccess "✅ Transaction is NOT Fraudulent via AI!") shown
    /\ ~ In (Shown StError "🚨 Fraud Detected via AI!") shown.
Proof.
  apply (form_never_shows_ai_fraud true [] (Raise ConnectionError) tx6000
           sample_form 200 (Transaction_dict tx6000) false).
  reflexivity.
Defined.

(** ** Dashboard helpers *)

(** X18. [get_time_granularity] answers daily, weekly or monthly and never
    hourly; only the three listed frames below a year give something other
    than monthly, and a frame it does not know is treated as monthly. *)
Theorem time_granularity_never_hourly (time_frame : string) :
  (get_time_granularity time_frame = "D"
   \/ get_time_granularity time_frame = "W"
   \/ get_time_granularity time_frame = "M")
  /\ get_time_granularity time_frame <> "H"
  /\ (get_time_granularity time_frame = "D"
      <-> time_frame = "Last 7 days" \/ time_frame = "Last 30 days")
  /\ (get_time_granularity time_frame = "W" <-> time_frame = "Last 90 days").
Proof.
  unfold get_time_granularity.
  destruct (String.eqb_spec time_frame "Last 7 days") as [->|H7];
    [repeat split; auto; try discriminate; intros H; discriminate H|].
  destruct (String.eqb_spec time_frame "Last 30 days") as [->|H30];
    [repeat split; auto; try discriminate; intros H; discriminate H|].
  destruct (String.eqb_spec time_frame "Last 90 days") as [->|H90];
    [repeat split; auto; try discriminate; intros [H|H]; discriminate H|].
  destruct (String.eqb_spec time_frame "Last year") as [->|Hy];
    repeat split; auto; try discriminate; intros H; try discriminate H;
      try (destruct H as [H|H]; try discriminate H); contradiction.
Qed.

Lemma filter_is_subsequence (p : DataRow -> bool) (data : list DataRow) :
  is_subsequence (filter p data) data.
Proof.
  induction data as [|y data IH]; simpl; [exact I|].
  destruct (p y); simpl.
  - left. now split.
  - destruct (filter p data); [exact I|]. now right.
Qed.

Lemma is_subsequence_refl (data : list DataRow) : is_subsequence data data.
Proof. induction data as [|y data IH]; simpl; [exact I|]. left. now split. Qed.

Lemma is_subsequence_cons (l data : list DataRow) (y : DataRow) :
  is_subsequence l data -> is_subsequence l (y :: data).
Proof. destruct l; simpl; [trivial|]. now right. Qed.

Lemma is_subsequence_trans (l1 l2 l3 : list DataRow) :
  is_subsequence l1 l2 -> is_subsequence l2 l3 -> is_subsequence l1 l3.
Proof.
  revert l1 l2. induction l3 as [|z l3 IH]; intros l1 l2 H12 H23.
  - destruct l2; [|destruct H23]. destruct l1; [exact I|destruct H12].
  - destruct l1 as [|x l1]; [exact I|].
    destruct l2 as [|y l2]; [destruct H12|].
    simpl in H23. destruct H23 as [[-> H23]|H23].
    + simpl in H12. destruct H12 as [[-> H12]|H12].
      * simpl. left. split; [reflexivity|]. now apply (IH l1 l2).
      * simpl. right. now apply (IH (x :: l1) l2).
    + simpl. right. now apply (IH (x :: l1) (y :: l2)).
Qed.

(** X19. [filter_data] treats an empty criterion as no criterion: with no
    date range or one that does not have two dates, no or an empty list of
    payers and of payees, and no or a blank search text, it returns the
    data unchanged; in particular an empty selection of payers keeps every
    row instead of none. *)
Theorem empty_criteria_keep_everything
  (is_blank : string -> bool) (contains : string -> res (string -> bool))
  (data : list DataRow) (date_range : option (list Z))
  (payer_id payee_id : option (list string)) (transaction_id : option string) :
  (date_range = None \/ exists l, date_range = Some l /\ List.length l <> 2%nat) ->
  (payer_id = None \/ payer_id = Some []) ->
  (payee_id = None \/ payee_id = Some []) ->
  (transaction_id = None \/ exists s, transaction_id = Some s /\ is_blank s = true) ->
  filter_data is_blank contains data date_range payer_id payee_id transaction_id
  = Ok data.
Proof.
  intros Hd Hp He Ht. unfold filter_data.
  assert (Hdate : match date_range with
                  | Some [start_date; end_date] =>
                      filter (fun row => (start_date <=? row.(Timestamp_date))
                                         && (row.(Timestamp_date) <=? end_date)) data
                  | _ => data
                  end = data).
  { destruct Hd as [->|(l & -> & Hl)]; [reflexivity|].
    destruct l as [|a [|b [|c l]]]; try reflexivity. now elim Hl. }
  rewrite Hdate.
  destruct Hp as [-> | ->], He as [-> | ->];
    (destruct Ht as [->|(s & -> & Hs)]; [reflexivity|now rewrite Hs]).
Qed.

Lemma empty_criteria_keep_everything_witness :
  filter_data (fun s => (s =? "")%string) (fun pat => Ok (String.eqb pat))
    [mk_DataRow "T1" 10 0 "P1" "R1" false true "Web" "Card" "B" (float_of_Z 5)]
    (Some [3]) (Some []) None (Some "")
  = Ok [mk_DataRow "T1" 10 0 "P1" "R1" false true "Web" "Card" "B" (float_of_Z 5)].
Proof.
  apply (empty_criteria_keep_everything
           (fun s => (s =? "")%string) (fun pat => Ok (String.eqb pat))).
  - right. exists [3]. split; [reflexivity|]. simpl. lia.
  - now right.
  - now left.
  - right. exists "". now split.
Defined.

(** X20. [filter_data] only removes rows: whatever the criteria, a result
    it returns is the data with some rows left out and the order kept,
    every row kept lies in the date range when two dates are given and has
    its payer among the selected ones when some are selected; and it
    raises only when a search text that is not blank fails to compile. *)
Theorem filter_data_only_removes_rows
  (is_blank : string -> bool) (contains : string -> res (string -> bool))
  (data : list DataRow) (date_range : option (list Z))
  (payer_id payee_id : option (list string)) (transaction_id : option string) :
  (forall result,
      filter_data is_blank contains data date_range payer_id payee_id transaction_id
      = Ok result ->
      is_subsequence result data
      /\ (forall start_date end_date row,
            date_range = Some [start_date; end_date] -> In row result ->
            start_date <= row.(Timestamp_date) <= end_date)
      /\ (forall p ps row,
            payer_id = Some (p :: ps) -> In row result ->
            In row.(Payer_ID) (p :: ps)))
  /\ (forall e,
        filter_data is_blank contains data date_range payer_id payee_id
          transaction_id = Raise e ->
        exists pat, transaction_id = Some pat /\ is_blank pat = false
                    /\ contains pat = Raise e).
Proof.
  unfold filter_data.
  set (d1 := match date_range with
             | Some [start_date; end_date] =>
                 filter (fun row => (start_date <=? row.(Timestamp_date))
                                    && (row.(Timestamp_date) <=? end_date)) data
             | _ => data
             end).
  set (d2 := match payer_id with
             | Some (p :: ps) => filter (fun row => isin row.(Payer_ID) (p :: ps)) d1
             | _ => d1
             end).
  set (d3 := match payee_id with
             | Some (p :: ps) => filter (fun row => isin row.(Payee_ID) (p :: ps)) d2
             | _ => d2
             end).
  assert (H1 : is_subsequence d1 data).
  { unfold d1. destruct date_range as [[|a [|b [|c l]]]|];
      try apply is_subsequence_refl. apply filter_is_subsequence. }
  assert (H2 : is_subsequence d2 d1).
  { unfold d2. destruct payer_id as [[|p ps]|];
      try apply is_subsequence_refl. apply filter_is_subsequence. }
  assert (H3 : is_subsequence d3 d2).
  { unfold d3. destruct payee_id as [[|p ps]|];
      try apply is_subsequence_refl. apply filter_is_subsequence. }
  assert (I1 : forall row, In row d2 -> In row d1).
  { intros row. unfold d2. destruct payer_id as [[|p ps]|]; trivial.
    intros H. now apply filter_In in H. }
  assert (I2 : forall row, In row d3 -> In row d2).
  { intros row. unfold d3. destruct payee_id as [[|p ps]|]; trivial.
    intros H. now apply filter_In in H. }
  assert (Hsub : forall result,
             match transaction_id with
             | Some pat =>
                 if negb (is_blank pat) then
                   match contains pat with
                   | Ok test => Ok (filter (fun row => test row.(Transaction_ID)) d3)
                   | Raise e => Raise e
                   end
                 else Ok d3
             | None => Ok d3
             end = Ok result ->
             is_subsequence result d3 /\ forall row, In row result -> In row d3).
  { intros result. destruct transaction_id as [pat|].
    - destruct (negb (is_blank pat)).
      + destruct (contains pat) as [test|e]; [|discriminate].
        intros H. injection H as <-. split; [apply filter_is_subsequence|].
        intros row Hin. now apply filter_In in Hin.
      + intros H. injection H as <-. split; [apply is_subsequence_refl|trivial].
    - intros H. injection H as <-. split; [apply is_subsequence_refl|trivial]. }
  split.
  - intros result Hres. apply Hsub in Hres as [Hs Hin]. split; [|split].
    + apply (is_subsequence_trans _ d3); [assumption|].
      apply (is_subsequence_trans _ d2); [assumption|].
      now apply (is_subsequence_trans _ d1).
    + intros start_date end_date row Hd Hrow.
      apply Hin, I2, I1 in Hrow. unfold d1 in Hrow. rewrite Hd in Hrow.
      apply filter_In in Hrow as [_ Hrow]. apply andb_true_iff in Hrow. lia.
    + intros p ps row Hp Hrow.
      apply Hin, I2 in Hrow. unfold d2 in Hrow. rewrite Hp in Hrow.
      apply filter_In in Hrow as [_ Hrow]. unfold isin in Hrow.
      apply existsb_exists in Hrow as (x & Hx & Heq).
      apply String.eqb_eq in Heq. now subst.
  - intros e. destruct transaction_id as [pat|]; [|discriminate].
    destruct (is_blank pat) eqn:Hb; simpl; [discriminate|].
    destruct (contains pat) as [test|e'] eqn:Hc; [discriminate|].
    intros H. injection H as <-. now exists pat.
Qed.
